(** * Verification of the activity tracker of src/src/main.js

    Shallow embedding of the Electron main process of the time tracker:
    the tracking state ([trackingData]), the JSON store ([loadData],
    [saveData], the [get-history] handler), the two sensors
    ([isChromeRunning], [getIdleTime] with its PowerShell fallback), the
    one-second step [checkActivity], the [setInterval] loop that drives it,
    and the tray's Quit item; and of the renderer (src/unnamed/part_000):
    [formatTime], the status dot and the regrouping of [renderHistory].

    Modelling conventions.
    - A timestamp is a [Date.now()] value: milliseconds since the epoch, as
      [Z].  ISO strings written by [toISOString] and read back with
      [new Date(..)] round-trip exactly at millisecond precision, so a
      stored session carries its timestamps as [Z] as well.
    - Local time is UTC shifted by a fixed offset [tz_off] (milliseconds);
      [getLocalDateStr] is represented by the local day number, of which
      the "YYYY-MM-DD" string is an injective function, so string
      (in)equality of dates is equality of day numbers.
    - Idle time is kept in milliseconds.  [getIdleTimePs] resolves
      [millis / 1000] (a real division in JS) and the step only uses it as
      [idleSeconds < 120] and [idleSeconds * 1000]; with the value in
      milliseconds these are [ms < 120000] and [ms], no rationals needed.
    - Every [Date.now()] / [new Date()] call of a step is its own clock
      reading, a field of [tick_input] named after its source line.
    - [Math.floor(x / 1000)] of an integer [x] is [Z.div x 1000] (floor). *)

From Stdlib Require Import ZArith List Bool Lia Permutation.
From Stdlib Require Ascii String.
Import (notations) Ascii String.
Import ListNotations.
Open Scope Z_scope.

Definition ms_per_day : Z := 24 * 60 * 60 * 1000.

(** ** Data model *)

(** [{ start, end, duration }] of [trackingData.sessions] and of the file. *)
Record session := Session {
  start : Z;
  end_ : Z;
  duration : Z
}.

(** [trackingData.notificationsSent]. *)
Record notifications := Notifs {
  h6 : bool;
  h8 : bool;
  h10 : bool
}.

Definition no_notifications : notifications := Notifs false false false.

Inductive threshold := H6 | H8 | H10.

Definition flag (h : threshold) (n : notifications) : bool :=
  match h with H6 => h6 n | H8 => h8 n | H10 => h10 n end.

(** The four strings stored in [trackingData.status]. *)
Inductive status :=
| Initializing          (* 'Initializing' *)
| TrackingWorking       (* 'Tracking (Working)' *)
| PausedChromeClosed    (* 'Paused (Chrome Closed)' *)
| PausedIdle.           (* 'Paused (Idle)' *)

(** [trackingData]; [currentDate] is the local day number. *)
Record tracking_data := TD {
  currentSessionStart : option Z;
  sessions : list session;
  currentDate : Z;
  status_ : status;
  isTracking : bool;
  lastActiveTime : Z;
  notificationsSent : notifications
}.

Definition set_currentSessionStart (v : option Z) (d : tracking_data) :=
  TD v (sessions d) (currentDate d) (status_ d) (isTracking d)
     (lastActiveTime d) (notificationsSent d).
Definition set_sessions (v : list session) (d : tracking_data) :=
  TD (currentSessionStart d) v (currentDate d) (status_ d) (isTracking d)
     (lastActiveTime d) (notificationsSent d).
Definition set_currentDate (v : Z) (d : tracking_data) :=
  TD (currentSessionStart d) (sessions d) v (status_ d) (isTracking d)
     (lastActiveTime d) (notificationsSent d).
Definition set_status (v : status) (d : tracking_data) :=
  TD (currentSessionStart d) (sessions d) (currentDate d) v (isTracking d)
     (lastActiveTime d) (notificationsSent d).
Definition set_isTracking (v : bool) (d : tracking_data) :=
  TD (currentSessionStart d) (sessions d) (currentDate d) (status_ d) v
     (lastActiveTime d) (notificationsSent d).
Definition set_lastActiveTime (v : Z) (d : tracking_data) :=
  TD (currentSessionStart d) (sessions d) (currentDate d) (status_ d)
     (isTracking d) v (notificationsSent d).
Definition set_notificationsSent (v : notifications) (d : tracking_data) :=
  TD (currentSessionStart d) (sessions d) (currentDate d) (status_ d)
     (isTracking d) (lastActiveTime d) v.

(** JS truthiness of [trackingData.currentSessionStart] (null or a number;
    the number 0 is falsy) and the number itself. *)
Definition start_truthy (o : option Z) : bool :=
  match o with Some t => negb (t =? 0) | None => false end.
Definition start_value (o : option Z) : Z :=
  match o with Some t => t | None => 0 end.

(** ** The store file *)

(** The value found under a date key of the parsed file:
    [EDay total sessions] for an object (its [sessions] field when that is
    truthy, [None] otherwise), [ENum n] for a legacy number, [EOther] for
    any other JSON value. *)
Inductive entry :=
| EDay (total : Z) (sess : option (list session))
| ENum (n : Z)
| EOther.

(** The value [JSON.parse] returns for the whole file: an object (keys in
    property order), [null], or any other JSON value (array, string,
    number, boolean). *)
Inductive json_top :=
| TObj (entries : list (Z * entry))
| TNull
| TOther.

(** [DATA_FILE] on disk: absent, present but unreadable or unparsable, or
    holding a JSON document. *)
Inductive file_state :=
| FMissing
| FUnparsable
| FJson (v : json_top).

Fixpoint get_entry (k : Z) (es : list (Z * entry)) : option entry :=
  match es with
  | [] => None
  | (k', e) :: r => if k =? k' then Some e else get_entry k r
  end.

(** [obj[k] = e] on a JS object: an existing property keeps its place, a
    new (non-index) key goes last. *)
Fixpoint set_entry (k : Z) (e : entry) (es : list (Z * entry)) : list (Z * entry) :=
  match es with
  | [] => [(k, e)]
  | (k', e') :: r => if k =? k' then (k, e) :: r else (k', e') :: set_entry k e r
  end.

(** Observable effects of the main process. *)
Inductive event :=
| EvPush (s : session)                  (* trackingData.sessions.push *)
| EvSaved (dateKey : Z)                 (* fs.writeFileSync(DATA_FILE, ..) *)
| EvLog                                 (* log(..) of a caught error *)
| EvNotify (h : threshold)              (* new Notification(..).show() *)
| EvUpdate (totalSeconds : Z) (st : status) (tracking : bool)
           (lastActive : Z) (date : Z). (* webContents.send('update-time') *)

(** The main process: [trackingData], the file, the module flags
    [useFallback] and [isQuitting]. *)
Record world := W {
  td : tracking_data;
  file : file_state;
  useFallback : bool;
  isQuitting : bool
}.

Definition set_td (v : tracking_data) (w : world) :=
  W v (file w) (useFallback w) (isQuitting w).
Definition set_file (v : file_state) (w : world) :=
  W (td w) v (useFallback w) (isQuitting w).
Definition set_useFallback (v : bool) (w : world) :=
  W (td w) (file w) v (isQuitting w).
Definition set_isQuitting (v : bool) (w : world) :=
  W (td w) (file w) (useFallback w) v.

(** [trackingData.sessions.reduce((acc, s) => acc + s.duration, 0)]. *)
Definition day_total (ss : list session) : Z :=
  fold_left (fun acc s => acc + duration s) ss 0.

(** [saveData] (lines 83-105).  The file is read afresh: absent gives [{}];
    a read or parse error is caught and logged, nothing is written; a
    [null] document makes [allData[dateKey] = ..] throw (caught, logged);
    on an array or primitive the assignment is not serialised (sloppy-mode
    script), so the same document is written back. *)
Definition saveData (w : world) : world * list event :=
  let dateKey := currentDate (td w) in
  let rec := EDay (day_total (sessions (td w))) (Some (sessions (td w))) in
  match file w with
  | FMissing => (set_file (FJson (TObj [(dateKey, rec)])) w, [EvSaved dateKey])
  | FUnparsable => (w, [EvLog])
  | FJson (TObj es) =>
      (set_file (FJson (TObj (set_entry dateKey rec es))) w, [EvSaved dateKey])
  | FJson TNull => (w, [EvLog])
  | FJson TOther => (w, [EvSaved dateKey])
  end.

Section Tracker.

(** Offset of local time from UTC, in milliseconds. *)
Variable tz_off : Z.

(** [getLocalDateStr(new Date(t))], as the local day number. *)
Definition getLocalDateStr (t : Z) : Z := (t + tz_off) / ms_per_day.

(** [new Date(y, m, d)] for the local date of [t]: local midnight. *)
Definition startOfDay (t : Z) : Z := getLocalDateStr t * ms_per_day - tz_off.

(** [loadData] (lines 55-80); [t] is the clock reading of line 59.  Every
    failure is caught inside the function. *)
Definition loadData (t : Z) (w : world) : world * list event :=
  match file w with
  | FMissing => (w, [])
  | FUnparsable => (w, [EvLog])
  | FJson v =>
      let today := getLocalDateStr t in
      let w1 := set_td (set_currentDate today (td w)) w in
      match v with
      | TNull => (w1, [EvLog])          (* data[today] on null throws *)
      | TOther => (set_td (set_sessions [] (td w1)) w1, [])
      | TObj es =>
          match get_entry today es with
          | Some (EDay _ (Some ss)) => (set_td (set_sessions ss (td w1)) w1, [])
          | _ => (set_td (set_sessions [] (td w1)) w1, [])
          end
      end
  end.

(** ** Sensors *)

(** Outcome of the [tasklist] run of [isChromeRunning]: an [exec] error, or
    its output, of which only "contains chrome.exe" matters. *)
Inductive chrome_probe :=
| ChromeErr
| ChromeOut (lists_chrome : bool).

(** [isChromeRunning] (lines 158-169). *)
Definition isChromeRunning (p : chrome_probe) : bool :=
  match p with
  | ChromeErr => false
  | ChromeOut b => b
  end.

(** Outcome of the [idle.ps1] run of [getIdleTimePs]: an [exec] error, or
    [parseInt] of its trimmed output ([None] for NaN). *)
Inductive ps_probe :=
| PsErr
| PsOut (parsed : option Z).

(** [getIdleTimePs] (lines 172-196), in milliseconds. *)
Definition getIdleTimePs (p : ps_probe) : Z :=
  match p with
  | PsErr => 0
  | PsOut None => 0
  | PsOut (Some millis) => millis
  end.

(** [getIdleTime] (lines 209-221): the idle time in milliseconds and the new
    value of [useFallback].  [native] is [desktopIdle.getIdleTime()]:
    [Some ms], or [None] when it throws (or the module failed to load,
    which set [useFallback] at start-up). *)
Definition getIdleTime (useFallback : bool) (native : option Z) (ps : ps_probe)
  : Z * bool :=
  if useFallback then (getIdleTimePs ps, true)
  else match native with
       | Some ms => (ms, false)
       | None => (getIdleTimePs ps, true)
       end.

(** [const isWorking = chromeOpen && (idleSeconds < 120)] (line 271). *)
Definition isWorking_of (chromeOpen : bool) (idleMs : Z) : bool :=
  chromeOpen && (idleMs <? 120000).

(** ** The step [checkActivity] *)

(** What the world supplies to one run of [checkActivity]: the clock
    readings, one per call site, and the sensor outcomes. *)
Record tick_input := Tick {
  t_today : Z;           (* new Date() in getLocalDateStr(), line 225 *)
  t_split_end : Z;       (* Date.now(), line 232 *)
  t_split_restart : Z;   (* Date.now(), line 248 *)
  chrome : chrome_probe; (* await isChromeRunning(), line 267 *)
  idle_native : option Z;(* desktopIdle.getIdleTime(), line 214 *)
  idle_ps : ps_probe;    (* getIdleTimePs(), lines 211/218 *)
  t_start : Z;           (* Date.now(), line 277 *)
  t_active : Z;          (* Date.now(), line 282 *)
  t_commit : Z;          (* Date.now(), line 291 *)
  t_display : Z;         (* Date.now(), line 327 *)
  t_now : Z;             (* new Date(), line 333 *)
  t_current : Z          (* new Date(), line 366 *)
}.

(** Lines 224-265, the synchronous part of [checkActivity] that runs before
    its first [await]: the midnight rollover. *)
Definition checkActivity_pre (i : tick_input) (w : world) : world * list event :=
  let todayStr := getLocalDateStr (t_today i) in
  let d := td w in
  if todayStr =? currentDate d then (w, [])
  else if isTracking d && start_truthy (currentSessionStart d) then
    let st := start_value (currentSessionStart d) in
    let currentSessionEnd := t_split_end i in
    let dur := (currentSessionEnd - st) / 1000 in
    let '(d1, ev1) :=
      if 0 <? dur then
        let s := Session st currentSessionEnd dur in
        (set_sessions (sessions d ++ [s]) d, [EvPush s])
      else (d, []) in
    let '(w2, ev2) := saveData (set_td d1 w) in
    let d3 := set_notificationsSent no_notifications
                (set_currentSessionStart (Some (t_split_restart i))
                   (set_currentDate todayStr (set_sessions [] (td w2)))) in
    (set_td d3 w2, ev1 ++ ev2)
  else
    let '(w1, ev1) := saveData w in
    let d2 := set_notificationsSent no_notifications
                (set_currentDate todayStr (set_sessions [] (td w1))) in
    (set_td d2 w1, ev1).

(** The overlap of one session with [startOfDay, endOfDay), lines 344-354
    (and 365-373 for the open session). *)
Definition overlap (startOfDay endOfDay sStart sEnd : Z) : Z :=
  let overlapStart := if sStart <? startOfDay then startOfDay else sStart in
  let overlapEnd := if endOfDay <? sEnd then endOfDay else sEnd in
  if overlapStart <? overlapEnd then (overlapEnd - overlapStart) / 1000 else 0.

(** [totalSecondsFunc] (lines 343-374); [currentNow] is the reading of
    line 366. *)
Definition totalSecondsFunc (startOfDay endOfDay : Z) (d : tracking_data)
  (currentNow : Z) : Z :=
  let acc := fold_left (fun acc s => acc + overlap startOfDay endOfDay (start s) (end_ s))
               (sessions d) 0 in
  if isTracking d && start_truthy (currentSessionStart d)
  then acc + overlap startOfDay endOfDay (start_value (currentSessionStart d)) currentNow
  else acc.

(** Lines 376-388. *)
Definition checkNotifications (total : Z) (n : notifications)
  : notifications * list event :=
  let '(n1, e1) := if negb (h6 n) && (21600 <=? total)
                   then (Notifs true (h8 n) (h10 n), [EvNotify H6]) else (n, []) in
  let '(n2, e2) := if negb (h8 n1) && (28800 <=? total)
                   then (Notifs (h6 n1) true (h10 n1), [EvNotify H8]) else (n1, []) in
  let '(n3, e3) := if negb (h10 n2) && (36000 <=? total)
                   then (Notifs (h6 n2) (h8 n2) true, [EvNotify H10]) else (n2, []) in
  (n3, e1 ++ e2 ++ e3).

(** Lines 286-306: the [Tracking -> Not Tracking] transition. *)
Definition commitSession (i : tick_input) (w : world) : world * list event :=
  if isTracking (td w) then
    let d := set_isTracking false (td w) in
    if start_truthy (currentSessionStart d) then
      let st := start_value (currentSessionStart d) in
      let nowTimestamp := t_commit i in
      let dur := (nowTimestamp - st) / 1000 in
      let '(w1, ev1) :=
        if 0 <? dur then
          let s := Session st nowTimestamp dur in
          let '(w2, ev2) := saveData (set_td (set_sessions (sessions d ++ [s]) d) w) in
          (w2, EvPush s :: ev2)
        else (set_td d w, []) in
      (set_td (set_currentSessionStart None (td w1)) w1, ev1)
    else (set_td d w, [])
  else (w, []).

(** Lines 267-400, the part of [checkActivity] after its [await]s.  The
    writes to [debug-calc.txt] have no effect on the state and are left
    out; the [update-time] snapshot is emitted as when the window exists. *)
Definition checkActivity_post (i : tick_input) (w0 : world) : world * list event :=
  let chromeOpen := isChromeRunning (chrome i) in
  let '(idleSeconds, uf) := getIdleTime (useFallback w0) (idle_native i) (idle_ps i) in
  let w := set_useFallback uf w0 in
  let isWorking := isWorking_of chromeOpen idleSeconds in
  let '(w1, ev1) :=
    if isWorking then
      let d := td w in
      let d1 := if negb (isTracking d)
                then set_currentSessionStart (Some (t_start i)) (set_isTracking true d)
                else d in
      (set_td (set_lastActiveTime (t_active i) (set_status TrackingWorking d1)) w, [])
    else
      let '(w2, ev2) := commitSession i w in
      let st := if negb chromeOpen then PausedChromeClosed else PausedIdle in
      (set_td (set_status st (td w2)) w2, ev2) in
  let displayLastActive :=
    if isWorking then t_display i else t_display i - idleSeconds in
  let d2 := set_lastActiveTime displayLastActive (td w1) in
  let sod := startOfDay (t_now i) in
  let eod := sod + ms_per_day in
  let total := totalSecondsFunc sod eod d2 (t_current i) in
  let '(ns, ev3) := checkNotifications total (notificationsSent d2) in
  let d3 := set_notificationsSent ns d2 in
  (set_td d3 w1,
   ev1 ++ ev3 ++ [EvUpdate total (status_ d3) (isTracking d3)
                     (lastActiveTime d3) (currentDate d3)]).

(** [checkActivity] run to completion without interleaving. *)
Definition checkActivity (i : tick_input) (w : world) : world * list event :=
  let '(w1, ev1) := checkActivity_pre i w in
  let '(w2, ev2) := checkActivity_post i w1 in
  (w2, ev1 ++ ev2).

(** A sequence of steps, each run to completion. *)
Fixpoint run (is : list tick_input) (w : world) : world * list event :=
  match is with
  | [] => (w, [])
  | i :: r =>
      let '(w1, ev1) := checkActivity i w in
      let '(w2, ev2) := run r w1 in
      (w2, ev1 ++ ev2)
  end.

(** ** The driving loop *)

(** The [setInterval] loop of lines 452-454 as a scheduler: every firing
    calls [checkActivity()] without awaiting it, so the call runs up to its
    first [await] and its continuation joins the steps in flight; a sensor
    completing resumes a step in flight (the oldest one here). *)
Record loop_state := Loop {
  lw : world;
  in_flight : list tick_input
}.

Definition interval_fire (i : tick_input) (s : loop_state) : loop_state * list event :=
  let '(w1, ev) := checkActivity_pre i (lw s) in
  (Loop w1 (in_flight s ++ [i]), ev).

Definition resume (s : loop_state) : option (loop_state * list event) :=
  match in_flight s with
  | [] => None
  | i :: r => let '(w1, ev) := checkActivity_post i (lw s) in Some (Loop w1 r, ev)
  end.

(** ** Start-up and shutdown *)

(** [trackingData] as initialised at module load (lines 19-40); [t0] is the
    clock reading of both [getLocalDateStr()] and [Date.now()] there. *)
Definition initial_tracking (t0 : Z) : tracking_data :=
  TD None [] (getLocalDateStr t0) Initializing false t0 no_notifications.

(** Process start: module load, then [loadData()] in [app.whenReady()]
    (line 420), [t1] being the clock reading of line 59. *)
Definition startup (t0 t1 : Z) (f : file_state) (uf : bool) : world * list event :=
  loadData t1 (W (initial_tracking t0) f uf false).

End Tracker.

(** The tray's Quit item (lines 116-119): [isQuitting = true; app.quit()].
    No [before-quit], [will-quit] or [quit] handler is registered, and the
    [window-all-closed] handler (lines 462-464) has an empty body, so the
    process ends with this world. *)
Definition quit_click (w : world) : world := set_isQuitting true w.

Definition window_all_closed (w : world) : world := w.

(** The [get-history] IPC handler (lines 425-435). *)
Definition get_history (f : file_state) : json_top :=
  match f with
  | FJson v => v
  | FMissing => TObj []
  | FUnparsable => TObj []
  end.

(** ** Properties *)

Lemma saveData_td (w : world) : td (fst (saveData w)) = td w.
Proof.
  unfold saveData; destruct (file w) as [| |[]]; reflexivity.
Qed.

Lemma saveData_useFallback (w : world) :
  useFallback (fst (saveData w)) = useFallback w.
Proof.
  unfold saveData; destruct (file w) as [| |[]]; reflexivity.
Qed.

Lemma commitSession_isTracking (i : tick_input) (w : world) :
  isTracking (td (fst (commitSession i w))) = false
  \/ (isTracking (td w) = false /\ commitSession i w = (w, [])).
Proof.
  unfold commitSession.
  destruct (isTracking (td w)) eqn:Ht; [left|right; auto].
  destruct (start_truthy _); [|reflexivity].
  destruct (0 <? _).
  - destruct (saveData _) as [w2 ev2] eqn:Es. simpl.
    change (isTracking (td (fst (w2, ev2))) = false).
    rewrite <- Es, saveData_td. reflexivity.
  - reflexivity.
Qed.

(** Whether the step [checkActivity_post] classifies its tick as working,
    as far as the tracking flag shows it: the flag after the step. *)
Lemma post_isTracking (tz : Z) (i : tick_input) (w : world) :
  isTracking (td (fst (checkActivity_post tz i w))) =
  isWorking_of (isChromeRunning (chrome i))
    (fst (getIdleTime (useFallback w) (idle_native i) (idle_ps i))).
Proof.
  unfold checkActivity_post.
  destruct (getIdleTime _ _ _) as [idle uf] eqn:Eg; simpl fst.
  destruct (isWorking_of _ idle) eqn:Ew.
  - destruct (checkNotifications _ _) as [ns ev3]; simpl.
    destruct (isTracking (td w)) eqn:Et; simpl; [exact Et | reflexivity].
  - destruct (commitSession i (set_useFallback uf w)) as [w2 ev2] eqn:Ec.
    destruct (checkNotifications _ _) as [ns ev3]; simpl.
    destruct (commitSession_isTracking i (set_useFallback uf w)) as [H|[H1 H2]];
      rewrite Ec in *; simpl in *; [exact H|].
    inversion H2; subst; exact H1.
Qed.

(** The [isWorking] value a run of [checkActivity_post] computes. *)
Definition tick_working (i : tick_input) (w : world) : bool :=
  isWorking_of (isChromeRunning (chrome i))
    (fst (getIdleTime (useFallback w) (idle_native i) (idle_ps i))).

(** A tick with every clock reading at [t], Chrome listed by [tasklist],
    and the given idle sensors. *)
Definition tick_at (t : Z) (c : chrome_probe) (native : option Z) (ps : ps_probe)
  : tick_input :=
  Tick t t t c native ps t t t t t t.

(** A process not tracking, on local day [day], store absent. *)
Definition idle_world (day : Z) (uf : bool) : world :=
  W (TD None [] day Initializing false 0 no_notifications) FMissing uf false.

(** C1 (counterexample): the idle probe failing (PowerShell fallback
    erroring) while Chrome is running still classifies the tick as
    working: the step opens a session. *)
Lemma C1_idle_probe_error_is_working :
  tick_working (tick_at 1000 (ChromeOut true) None PsErr) (idle_world 0 true) = true
  /\ isTracking (td (fst (checkActivity_post 0 (tick_at 1000 (ChromeOut true) None PsErr)
                          (idle_world 0 true)))) = true.
Proof. split; reflexivity. Qed.

(** C1 (amended): a failing process-presence query makes the tick not
    working whatever the idle reading; a failing idle probe (the
    PowerShell run erroring or printing a non-number, on the fallback
    path) reads as 0 ms idle, so the tick is working exactly when Chrome
    is reported running.  The tracking flag after the step is that
    classification. *)
Theorem C1_sensor_failure_classification (tz : Z) (i : tick_input) (w : world) :
  isTracking (td (fst (checkActivity_post tz i w))) = tick_working i w
  /\ (chrome i = ChromeErr -> tick_working i w = false)
  /\ ((useFallback w = true \/ idle_native i = None) ->
      (idle_ps i = PsErr \/ idle_ps i = PsOut None) ->
      tick_working i w = isChromeRunning (chrome i)).
Proof.
  split; [apply post_isTracking|split].
  - intros Hc. unfold tick_working. rewrite Hc. reflexivity.
  - intros Hpath Hps. unfold tick_working, getIdleTime.
    assert (Hz : getIdleTimePs (idle_ps i) = 0)
      by (destruct Hps as [-> | ->]; reflexivity).
    destruct (useFallback w).
    + simpl. rewrite Hz. unfold isWorking_of. now rewrite andb_true_r.
    + destruct Hpath as [Hf | ->]; [discriminate|].
      simpl. rewrite Hz. unfold isWorking_of. now rewrite andb_true_r.
Qed.

Lemma C1_sensor_failure_classification_witness :
  chrome (tick_at 5 ChromeErr None PsErr) = ChromeErr
  /\ (useFallback (idle_world 0 true) = true \/ idle_native (tick_at 5 ChromeErr None PsErr) = None)
  /\ (idle_ps (tick_at 5 ChromeErr None PsErr) = PsErr
      \/ idle_ps (tick_at 5 ChromeErr None PsErr) = PsOut None)
  /\ tick_working (tick_at 5 ChromeErr None PsErr) (idle_world 0 true) = false
  /\ tick_working (tick_at 5 ChromeErr None PsErr) (idle_world 0 true)
     = isChromeRunning (chrome (tick_at 5 ChromeErr None PsErr)).
Proof.
  pose proof (C1_sensor_failure_classification 0 (tick_at 5 ChromeErr None PsErr)
                (idle_world 0 true)) as [_ [H1 H2]].
  split; [reflexivity|]. split; [left; reflexivity|]. split; [left; reflexivity|].
  split; [apply H1; reflexivity|apply H2; [left|left]; reflexivity].
Defined.

(** Brasília time, UTC-03:00 (no daylight saving since 2019). *)
Definition brt : Z := -10800000.

(** 2026-10-20T00:00:00.000-03:00; its local day number is 20746. *)
Definition midnight_20_oct_2026 : Z := 1792465200000.

(** A process tracking since [st] on local day [day], store absent. *)
Definition tracking_world (day st : Z) : world :=
  W (TD (Some st) [] day TrackingWorking true st no_notifications) FMissing false false.

(** The first tick after local midnight of 2026-10-20, 400 ms late, for a
    session opened at 23:59:50 the day before. *)
Definition rollover_tick : tick_input :=
  tick_at (midnight_20_oct_2026 + 400) (ChromeOut true) (Some 0) PsErr.

Definition rollover_world : world :=
  tracking_world 20745 (midnight_20_oct_2026 - 10000).

(** C2 (counterexample): at that rollover the session appended to the old
    day's [sessions] ends at the tick's clock reading, 400 ms after local
    midnight, a time on the new local day, not on [current_date]. *)
Lemma C2_split_ends_after_midnight :
  snd (checkActivity_pre brt rollover_tick rollover_world)
  = [EvPush (Session (midnight_20_oct_2026 - 10000) (midnight_20_oct_2026 + 400) 10);
     EvSaved 20745]
  /\ currentDate (td rollover_world) = 20745
  /\ getLocalDateStr brt (midnight_20_oct_2026 + 400) = 20746
  /\ midnight_20_oct_2026 + 400 <> startOfDay brt (midnight_20_oct_2026 + 400).
Proof. vm_compute. repeat split; discriminate. Qed.

Lemma getLocalDateStr_mono (tz a b : Z) :
  a <= b -> getLocalDateStr tz a <= getLocalDateStr tz b.
Proof.
  intros H. unfold getLocalDateStr, ms_per_day.
  apply Z.div_le_mono; lia.
Qed.

(** C2 (amended): at a day rollover (the tick's local date differs from
    [current_date]) with an open session started at [st], the step appends
    [[st, t_end]] with duration [floor((t_end - st)/1000)], [t_end] being
    the rollover tick's clock reading, when that duration is positive;
    saves under the old [current_date]; then empties [sessions], moves
    [current_date] to the tick's date, clears the notification flags and
    reopens the session at a second reading [t_restart].  With a clock
    that does not run backwards, [t_end] lies on a later local day than
    the old [current_date]: the first piece ends at the tick, not at local
    midnight, and the pieces cover the interval except [[t_end, t_restart)]. *)
Theorem C2_rollover_split (tz : Z) (i : tick_input) (w : world) :
  getLocalDateStr tz (t_today i) <> currentDate (td w) ->
  isTracking (td w) = true ->
  start_truthy (currentSessionStart (td w)) = true ->
  let st := start_value (currentSessionStart (td w)) in
  let dur := (t_split_end i - st) / 1000 in
  let pushed := if 0 <? dur then [Session st (t_split_end i) dur] else [] in
  let w_old := set_td (set_sessions (sessions (td w) ++ pushed) (td w)) w in
  let '(w', evs) := checkActivity_pre tz i w in
  evs = map EvPush pushed ++ snd (saveData w_old)
  /\ currentDate (td w_old) = currentDate (td w)
  /\ file w' = file (fst (saveData w_old))
  /\ sessions (td w') = []
  /\ currentDate (td w') = getLocalDateStr tz (t_today i)
  /\ currentSessionStart (td w') = Some (t_split_restart i)
  /\ isTracking (td w') = true
  /\ notificationsSent (td w') = no_notifications
  /\ (currentDate (td w) < getLocalDateStr tz (t_today i) ->
      t_today i <= t_split_end i ->
      currentDate (td w) < getLocalDateStr tz (t_split_end i)).
Proof.
  intros Hd Ht Hs st dur pushed w_old.
  unfold checkActivity_pre.
  rewrite (proj2 (Z.eqb_neq _ _) Hd), Ht, Hs. simpl andb. cbv iota.
  fold st dur.
  assert (Hmono : currentDate (td w) < getLocalDateStr tz (t_today i) ->
                  t_today i <= t_split_end i ->
                  currentDate (td w) < getLocalDateStr tz (t_split_end i)).
  { intros H1 H2. pose proof (getLocalDateStr_mono tz _ _ H2). lia. }
  unfold w_old, pushed; clear w_old pushed.
  destruct w as [[css ss cd stt it lat ns] f uf q]; simpl in *.
  destruct (0 <? dur); [|rewrite app_nil_r];
    destruct f as [| |[]]; simpl; repeat split; auto.
Qed.

Lemma C2_rollover_split_witness :
  getLocalDateStr brt (t_today rollover_tick) <> currentDate (td rollover_world)
  /\ isTracking (td rollover_world) = true
  /\ start_truthy (currentSessionStart (td rollover_world)) = true
  /\ sessions (td (fst (checkActivity_pre brt rollover_tick rollover_world))) = []
  /\ currentSessionStart (td (fst (checkActivity_pre brt rollover_tick rollover_world)))
     = Some (midnight_20_oct_2026 + 400).
Proof.
  assert (Hd : getLocalDateStr brt (t_today rollover_tick) <> currentDate (td rollover_world))
    by (vm_compute; discriminate).
  pose proof (C2_rollover_split brt rollover_tick rollover_world Hd eq_refl eq_refl) as H.
  cbv zeta in H.
  destruct (checkActivity_pre brt rollover_tick rollover_world) as [w' evs].
  destruct H as [_ [_ [_ [Hs [_ [Hst _]]]]]].
  repeat split; [exact Hd | exact Hs | exact Hst].
Defined.

(** C3 (counterexample): quitting from the tray while a session has been
    open for ten seconds appends nothing and writes nothing: the session
    is lost and the store stays absent. *)
Lemma C3_quit_drops_open_session :
  let w := tracking_world 20745 (midnight_20_oct_2026 - 10000) in
  isTracking (td w) = true
  /\ sessions (td (quit_click w)) = []
  /\ file (quit_click w) = FMissing
  /\ window_all_closed w = w.
Proof. repeat split. Qed.

(** C3 (amended): on termination through the tray's Quit item the tracker
    state and the store are left exactly as they were: an open session is
    neither closed nor appended, no save is performed, and closing all
    windows changes nothing either. *)
Theorem C3_quit_leaves_state (w : world) :
  td (quit_click w) = td w
  /\ file (quit_click w) = file w
  /\ isQuitting (quit_click w) = true
  /\ window_all_closed w = w.
Proof. repeat split. Qed.

(** C4 (counterexample): two interval firings with the first step still
    awaiting its sensors leave two steps in flight. *)
Lemma C4_two_steps_in_flight :
  let i := tick_at 1000 (ChromeOut true) (Some 0) PsErr in
  let s := Loop (idle_world 0 false) [] in
  length (in_flight (fst (interval_fire 0 i (fst (interval_fire 0 i s))))) = 2%nat.
Proof. reflexivity. Qed.

(** C4 (amended): every firing of the one-second interval starts a new
    [checkActivity] whatever is in flight: it runs the rollover part at
    once and adds one more step awaiting its sensors; nothing is skipped,
    so the number of steps in flight is the number of firings not yet
    resumed. *)
Theorem C4_interval_always_starts_step (tz : Z) (i : tick_input) (s : loop_state) :
  in_flight (fst (interval_fire tz i s)) = in_flight s ++ [i]
  /\ lw (fst (interval_fire tz i s)) = fst (checkActivity_pre tz i (lw s))
  /\ length (in_flight (fst (interval_fire tz i s))) = S (length (in_flight s)).
Proof.
  unfold interval_fire. destruct (checkActivity_pre tz i (lw s)) as [w1 ev]. simpl.
  repeat split. rewrite length_app. simpl. lia.
Qed.

(** The daily aggregate in the words of the spec: the length of
    [[s, e]] intersected with [[sod, sod + 24h)], floored to seconds,
    summed over the committed sessions, plus the open session's
    [[start, now]] clipped the same way. *)
Definition spec_clip (sod s e : Z) : Z :=
  Z.max 0 (Z.min e (sod + ms_per_day) - Z.max s sod) / 1000.

Definition spec_daily_total (sod : Z) (ss : list session) (open : option Z)
  (now : Z) : Z :=
  fold_right (fun s acc => spec_clip sod (start s) (end_ s) + acc) 0 ss
  + match open with Some st => spec_clip sod st now | None => 0 end.

(** The open session, as the spec has it: [is_tracking] with its start. *)
Definition open_session (d : tracking_data) : option Z :=
  if isTracking d then currentSessionStart d else None.

Lemma overlap_spec_clip (sod s e : Z) :
  overlap sod (sod + ms_per_day) s e = spec_clip sod s e.
Proof.
  unfold overlap, spec_clip.
  destruct (Z.ltb_spec s sod) as [H1|H1];
  destruct (Z.ltb_spec (sod + ms_per_day) e) as [H2|H2];
  [rewrite (Z.max_r s sod) by lia | rewrite (Z.max_r s sod) by lia
  | rewrite (Z.max_l s sod) by lia | rewrite (Z.max_l s sod) by lia];
  [rewrite (Z.min_r e) by lia | rewrite (Z.min_l e) by lia
  | rewrite (Z.min_r e) by lia | rewrite (Z.min_l e) by lia];
  match goal with
  | |- (if ?a <? ?b then _ else _) = _ =>
      destruct (Z.ltb_spec a b);
      [rewrite Z.max_r by lia | rewrite Z.max_l by lia; reflexivity]
  end; reflexivity.
Qed.

Lemma fold_left_add_fold_right (f : session -> Z) (l : list session) (a : Z) :
  fold_left (fun acc s => acc + f s) l a = a + fold_right (fun s acc => f s + acc) 0 l.
Proof.
  revert a; induction l as [|s l IH]; intros a; simpl; [lia|].
  rewrite IH. lia.
Qed.

Lemma totalSecondsFunc_spec (sod : Z) (d : tracking_data) (currentNow : Z) :
  currentSessionStart d <> Some 0 ->
  totalSecondsFunc sod (sod + ms_per_day) d currentNow
  = spec_daily_total sod (sessions d) (open_session d) currentNow.
Proof.
  intros H0. unfold totalSecondsFunc, spec_daily_total, open_session.
  rewrite fold_left_add_fold_right.
  replace (fold_right (fun s acc => overlap sod (sod + ms_per_day) (start s) (end_ s) + acc)
             0 (sessions d))
    with (fold_right (fun s acc => spec_clip sod (start s) (end_ s) + acc) 0 (sessions d))
    by (induction (sessions d) as [|s l IH]; simpl; [|rewrite IH, overlap_spec_clip]; reflexivity).
  destruct (isTracking d); simpl; [|lia].
  destruct (currentSessionStart d) as [t|]; simpl; [|lia].
  destruct (Z.eqb_spec t 0) as [->|Ht]; [congruence|].
  simpl. rewrite overlap_spec_clip. lia.
Qed.

Lemma commitSession_start (i : tick_input) (w : world) :
  currentSessionStart (td (fst (commitSession i w))) = None
  \/ currentSessionStart (td (fst (commitSession i w))) = currentSessionStart (td w).
Proof.
  unfold commitSession.
  destruct (isTracking (td w)); [|right; reflexivity].
  destruct (start_truthy _); [left|right; reflexivity].
  destruct (0 <? _); [destruct (saveData _) as [w2 ev2]|]; reflexivity.
Qed.

(** C5: the total published by a step is the spec's aggregate over the
    state after the transition: each committed session's [[start, end]]
    clipped to the local day of the tick ([[startOfDay, startOfDay + 24h)]),
    floored to whole seconds and summed, plus the open session's
    [[start, now]] clipped the same way; a session outside that window
    contributes zero.  (Clock readings are positive, the session start is
    never the falsy timestamp 0.) *)
Theorem C5_published_total (tz : Z) (i : tick_input) (w : world) :
  currentSessionStart (td w) <> Some 0 ->
  t_start i <> 0 ->
  (let '(w', evs) := checkActivity_post tz i w in
   exists st tr la dt,
     last evs EvLog
     = EvUpdate (spec_daily_total (startOfDay tz (t_now i)) (sessions (td w'))
                   (open_session (td w')) (t_current i)) st tr la dt)
  /\ (forall sod s e, e <= sod \/ sod + ms_per_day <= s ->
      overlap sod (sod + ms_per_day) s e = 0).
Proof.
  intros H0 Hs. split.
  2:{ intros sod s e He. rewrite overlap_spec_clip. unfold spec_clip.
      rewrite Z.max_l by lia. reflexivity. }
  unfold checkActivity_post.
  destruct (getIdleTime _ _ _) as [idle uf] eqn:Eg.
  destruct (isWorking_of (isChromeRunning (chrome i)) idle) eqn:Ew.
  - destruct (checkNotifications _ _) as [ns ev3].
    do 4 eexists. rewrite app_assoc, last_last. f_equal.
    simpl td. rewrite <- totalSecondsFunc_spec; [reflexivity|].
    simpl. destruct (isTracking (td w)); simpl; congruence.
  - destruct (commitSession i (set_useFallback uf w)) as [w2 ev2] eqn:Ec.
    destruct (checkNotifications _ _) as [ns ev3].
    do 4 eexists. rewrite app_assoc, last_last. f_equal.
    simpl td. rewrite <- totalSecondsFunc_spec; [reflexivity|].
    simpl. destruct (commitSession_start i (set_useFallback uf w)) as [H|H];
      rewrite Ec in H; simpl in H; rewrite H; congruence.
Qed.

(** On 2026-10-20 (UTC-03:00), two hours after local midnight: a session
    of the previous evening, one straddling midnight and one open since
    01:00. *)
Definition day_world : world :=
  W (TD (Some (midnight_20_oct_2026 + 3600000))
        [Session (midnight_20_oct_2026 - 3600000) (midnight_20_oct_2026 - 1800000) 1800;
         Session (midnight_20_oct_2026 - 10000) (midnight_20_oct_2026 + 5000) 15]
        20746 TrackingWorking true (midnight_20_oct_2026 + 3600000) no_notifications)
    FMissing false false.

Definition day_tick : tick_input :=
  tick_at (midnight_20_oct_2026 + 7200000) (ChromeOut true) (Some 0) PsErr.

(** Only the 5 s after midnight and the open hour count. *)
Example day_tick_total :
  last (snd (checkActivity_post brt day_tick day_world)) EvLog
  = EvUpdate 3605 TrackingWorking true (midnight_20_oct_2026 + 7200000) 20746.
Proof. vm_compute. reflexivity. Qed.

Lemma C5_published_total_witness :
  currentSessionStart (td day_world) <> Some 0
  /\ t_start day_tick <> 0
  /\ (let '(w', evs) := checkActivity_post brt day_tick day_world in
      exists st tr la dt,
        last evs EvLog
        = EvUpdate (spec_daily_total (startOfDay brt (t_now day_tick)) (sessions (td w'))
                      (open_session (td w')) (t_current day_tick)) st tr la dt).
Proof.
  assert (H0 : currentSessionStart (td day_world) <> Some 0) by (vm_compute; discriminate).
  assert (Hs : t_start day_tick <> 0) by (vm_compute; discriminate).
  split; [exact H0|]. split; [exact Hs|].
  exact (proj1 (C5_published_total brt day_tick day_world H0 Hs)).
Defined.

(** ** Notifications *)

Definition threshold_eqb (a b : threshold) : bool :=
  match a, b with
  | H6, H6 | H8, H8 | H10, H10 => true
  | _, _ => false
  end.

Definition is_notify (h : threshold) (e : event) : bool :=
  match e with EvNotify h' => threshold_eqb h h' | _ => false end.

(** How many times the notification of [h] is shown in [evs]. *)
Definition count_notify (h : threshold) (evs : list event) : nat :=
  length (filter (is_notify h) evs).

Lemma count_notify_app (h : threshold) (a b : list event) :
  count_notify h (a ++ b) = (count_notify h a + count_notify h b)%nat.
Proof. unfold count_notify. now rewrite filter_app, length_app. Qed.

Lemma saveData_no_notify (h : threshold) (w : world) :
  count_notify h (snd (saveData w)) = 0%nat.
Proof. unfold saveData; destruct (file w) as [| |[]]; reflexivity. Qed.

(** A flag after [checkNotifications] is the flag before plus the number
    of times its notification was shown. *)
Lemma checkNotifications_count (h : threshold) (t : Z) (n : notifications) :
  Nat.b2n (flag h (fst (checkNotifications t n)))
  = (Nat.b2n (flag h n) + count_notify h (snd (checkNotifications t n)))%nat.
Proof.
  destruct n as [a b c]. unfold checkNotifications. simpl.
  destruct a, b, c; simpl;
  destruct (21600 <=? t), (28800 <=? t), (36000 <=? t); destruct h; reflexivity.
Qed.

Lemma commitSession_frame (h : threshold) (i : tick_input) (w : world) :
  currentDate (td (fst (commitSession i w))) = currentDate (td w)
  /\ notificationsSent (td (fst (commitSession i w))) = notificationsSent (td w)
  /\ count_notify h (snd (commitSession i w)) = 0%nat.
Proof.
  unfold commitSession.
  destruct (isTracking (td w)); [|repeat split].
  destruct (start_truthy _); [|repeat split].
  destruct (0 <? _).
  - match goal with
    | |- context [saveData ?X] =>
        pose proof (saveData_td X) as Htd; pose proof (saveData_no_notify h X) as Hn;
        destruct (saveData X) as [w2 ev2]
    end.
    simpl in *. rewrite Htd.
    repeat split. unfold count_notify in *. simpl. exact Hn.
  - repeat split.
Qed.

(** The part of [checkActivity] after its [await]s keeps the date, and its
    flags and notifications are those of one [checkNotifications]. *)
Lemma post_frame (h : threshold) (tz : Z) (i : tick_input) (w : world) :
  currentDate (td (fst (checkActivity_post tz i w))) = currentDate (td w)
  /\ exists t,
       notificationsSent (td (fst (checkActivity_post tz i w)))
       = fst (checkNotifications t (notificationsSent (td w)))
       /\ count_notify h (snd (checkActivity_post tz i w))
          = count_notify h (snd (checkNotifications t (notificationsSent (td w)))).
Proof.
  unfold checkActivity_post.
  destruct (getIdleTime _ _ _) as [idle uf].
  destruct (isWorking_of _ idle) eqn:Ew.
  - match goal with
    | |- context [checkNotifications ?t (notificationsSent (set_lastActiveTime ?a ?d))] =>
        assert (Hn : notificationsSent (set_lastActiveTime a d) = notificationsSent (td w))
          by (simpl; destruct (isTracking (td w)); reflexivity);
        rewrite Hn; split; [|exists t];
        destruct (checkNotifications t (notificationsSent (td w))) as [ns ev3]
    end.
    + simpl. destruct (isTracking (td w)); reflexivity.
    + simpl. split; [reflexivity|]. rewrite !count_notify_app. unfold count_notify. simpl. lia.
  - destruct (commitSession_frame h i (set_useFallback uf w)) as [Hd [Hn Hc]].
    destruct (commitSession i (set_useFallback uf w)) as [w2 ev2]. simpl in Hd, Hn, Hc.
    match goal with
    | |- context [checkNotifications ?t (notificationsSent (set_lastActiveTime ?a ?d))] =>
        replace (notificationsSent (set_lastActiveTime a d)) with (notificationsSent (td w))
          by (simpl; rewrite Hn; reflexivity);
        split; [|exists t];
        destruct (checkNotifications t (notificationsSent (td w))) as [ns ev3]
    end.
    + simpl. exact Hd.
    + simpl. split; [reflexivity|]. rewrite !count_notify_app, Hc. simpl.
      unfold count_notify. simpl. lia.
Qed.

Lemma pre_same_day (tz : Z) (i : tick_input) (w : world) :
  getLocalDateStr tz (t_today i) = currentDate (td w) ->
  checkActivity_pre tz i w = (w, []).
Proof.
  intros H. unfold checkActivity_pre. rewrite H, Z.eqb_refl. reflexivity.
Qed.

Lemma pre_rollover (h : threshold) (tz : Z) (i : tick_input) (w : world) :
  getLocalDateStr tz (t_today i) <> currentDate (td w) ->
  currentDate (td (fst (checkActivity_pre tz i w))) = getLocalDateStr tz (t_today i)
  /\ notificationsSent (td (fst (checkActivity_pre tz i w))) = no_notifications
  /\ count_notify h (snd (checkActivity_pre tz i w)) = 0%nat.
Proof.
  intros H. unfold checkActivity_pre.
  rewrite (proj2 (Z.eqb_neq _ _) H).
  destruct (isTracking (td w) && start_truthy (currentSessionStart (td w))).
  - destruct (0 <? _);
      (match goal with
       | |- context [saveData ?X] =>
           pose proof (saveData_no_notify h X) as Hn; destruct (saveData X) as [w2 ev2]
       end; simpl in *; repeat split; unfold count_notify in *; simpl; exact Hn).
  - match goal with
    | |- context [saveData ?X] =>
        pose proof (saveData_no_notify h X) as Hn; destruct (saveData X) as [w2 ev2]
    end; simpl in *; repeat split; exact Hn.
Qed.

(** The flag of [h] as it stands for day [D]: flags of an earlier
    [currentDate] do not count, the next step clears them. *)
Definition flag_for_day (D : Z) (h : threshold) (w : world) : bool :=
  if currentDate (td w) =? D then flag h (notificationsSent (td w)) else false.

Lemma step_flag (tz D : Z) (h : threshold) (i : tick_input) (w : world) :
  getLocalDateStr tz (t_today i) = D ->
  currentDate (td (fst (checkActivity tz i w))) = D
  /\ Nat.b2n (flag h (notificationsSent (td (fst (checkActivity tz i w)))))
     = (Nat.b2n (flag_for_day D h w) + count_notify h (snd (checkActivity tz i w)))%nat.
Proof.
  intros HD. unfold checkActivity, flag_for_day.
  destruct (Z.eqb_spec (currentDate (td w)) D) as [Hc|Hc].
  - rewrite pre_same_day by congruence.
    destruct (post_frame h tz i w) as [Hd [t [Hn Hcnt]]].
    destruct (checkActivity_post tz i w) as [w2 ev2]. simpl in *.
    split; [congruence|]. rewrite Hn, Hcnt. apply checkNotifications_count.
  - destruct (pre_rollover h tz i w) as [Hd1 [Hn1 Hc1]]; [congruence|].
    destruct (checkActivity_pre tz i w) as [w1 ev1]. simpl in *.
    destruct (post_frame h tz i w1) as [Hd [t [Hn Hcnt]]].
    destruct (checkActivity_post tz i w1) as [w2 ev2]. simpl in *.
    split; [congruence|]. rewrite count_notify_app, Hc1, Hn, Hcnt, Hn1.
    rewrite checkNotifications_count. destruct h; reflexivity.
Qed.

Lemma run_flag (tz D : Z) (h : threshold) (is : list tick_input) (w : world) :
  Forall (fun i => getLocalDateStr tz (t_today i) = D) is ->
  (is = [] /\ run tz is w = (w, []))
  \/ (currentDate (td (fst (run tz is w))) = D
      /\ Nat.b2n (flag h (notificationsSent (td (fst (run tz is w)))))
         = (Nat.b2n (flag_for_day D h w) + count_notify h (snd (run tz is w)))%nat).
Proof.
  revert w. induction is as [|i r IH]; intros w Hall; [left; auto|right].
  pose proof (Forall_inv Hall) as Hi; pose proof (Forall_inv_tail Hall) as Hr.
  simpl. destruct (step_flag tz D h i w Hi) as [Hd1 Hf1].
  destruct (checkActivity tz i w) as [w1 ev1]. simpl in Hd1, Hf1.
  destruct (IH w1 Hr) as [[-> Hrun]|[Hd2 Hf2]].
  - simpl. rewrite app_nil_r. auto.
  - destruct (run tz r w1) as [w2 ev2]. simpl in *.
    unfold flag_for_day in Hf2. rewrite Hd1, Z.eqb_refl in Hf2.
    split; [exact Hd2|]. rewrite count_notify_app. lia.
Qed.

(** C6: over any run of steps whose ticks all fall on local day [D], each
    threshold's notification is shown at most once, and not at all when
    its flag was already set for [D]; a set flag stays set whatever the
    aggregate does, and a shown notification leaves its flag set.  Flags
    of an earlier day are cleared by the rollover step ([pre_rollover]),
    the only place that clears them. *)
Theorem C6_notification_once_per_day (tz D : Z) (h : threshold)
  (is : list tick_input) (w : world) :
  Forall (fun i => getLocalDateStr tz (t_today i) = D) is ->
  let '(w', evs) := run tz is w in
  (Nat.b2n (flag_for_day D h w) + count_notify h evs <= 1)%nat
  /\ (flag_for_day D h w = true -> flag h (notificationsSent (td w')) = true)
  /\ ((count_notify h evs > 0)%nat -> flag h (notificationsSent (td w')) = true).
Proof.
  intros Hall.
  destruct (run_flag tz D h is w Hall) as [[_ Hrun]|[_ Hf]].
  - rewrite Hrun. unfold count_notify, flag_for_day. simpl.
    destruct (currentDate (td w) =? D); [destruct (flag h (notificationsSent (td w)))|];
      simpl; repeat split; intros; try discriminate; try lia; auto.
  - destruct (run tz is w) as [w' evs]. simpl in Hf.
    destruct (flag h (notificationsSent (td w'))) eqn:Ef;
      destruct (flag_for_day D h w); simpl in *; repeat split; intros; auto; lia.
Qed.

(** Eight working hours on 2026-10-20, sampled twice at 08:00. *)
Definition morning_world : world :=
  W (TD (Some midnight_20_oct_2026) [] 20746 TrackingWorking true midnight_20_oct_2026
        no_notifications) FMissing false false.

Definition morning_ticks : list tick_input :=
  [tick_at (midnight_20_oct_2026 + 28800000) (ChromeOut true) (Some 0) PsErr;
   tick_at (midnight_20_oct_2026 + 28801000) (ChromeOut true) (Some 0) PsErr].

Example morning_notifications :
  count_notify H6 (snd (run brt morning_ticks morning_world)) = 1%nat
  /\ count_notify H8 (snd (run brt morning_ticks morning_world)) = 1%nat
  /\ count_notify H10 (snd (run brt morning_ticks morning_world)) = 0%nat.
Proof. vm_compute. repeat split. Qed.

Lemma C6_notification_once_per_day_witness :
  Forall (fun i => getLocalDateStr brt (t_today i) = 20746) morning_ticks
  /\ (count_notify H6 (snd (run brt morning_ticks morning_world)) <= 1)%nat.
Proof.
  assert (Hall : Forall (fun i => getLocalDateStr brt (t_today i) = 20746) morning_ticks)
    by (repeat constructor).
  split; [exact Hall|].
  pose proof (C6_notification_once_per_day brt 20746 H6 morning_ticks morning_world Hall) as H.
  destruct (run brt morning_ticks morning_world) as [w' evs].
  destruct H as [H _]. simpl. lia.
Defined.

(** ** Well-formed sessions *)

Definition session_wf (s : session) : Prop :=
  start s < end_ s /\ duration s = (end_ s - start s) / 1000 /\ 0 < duration s.

Definition entry_wf (e : entry) : Prop :=
  match e with
  | EDay _ (Some ss) => Forall session_wf ss
  | _ => True
  end.

(** Every day record of the store holds well-formed sessions only. *)
Definition file_wf (f : file_state) : Prop :=
  match f with
  | FJson (TObj es) => Forall (fun ke => entry_wf (snd ke)) es
  | _ => True
  end.

(** The sessions pushed onto [trackingData.sessions] during [evs]. *)
Definition pushes (evs : list event) : list session :=
  flat_map (fun e => match e with EvPush s => [s] | _ => [] end) evs.

Lemma pushes_app (a b : list event) : pushes (a ++ b) = pushes a ++ pushes b.
Proof. unfold pushes. apply flat_map_app. Qed.

Lemma saveData_pushes (w : world) : pushes (snd (saveData w)) = [].
Proof. unfold saveData; destruct (file w) as [| |[]]; reflexivity. Qed.

Lemma new_session_wf (st e : Z) :
  0 < (e - st) / 1000 -> session_wf (Session st e ((e - st) / 1000)).
Proof.
  intros H. unfold session_wf; simpl. split; [|split; [reflexivity|exact H]].
  destruct (Z_lt_ge_dec st e) as [Hl|Hg]; [exact Hl|].
  assert (Hle : (e - st) / 1000 <= 0 / 1000) by (apply Z.div_le_mono; lia).
  rewrite Z.div_0_l in Hle by lia. lia.
Qed.

Lemma set_entry_Forall (P : Z * entry -> Prop) (k : Z) (e : entry) (es : list (Z * entry)) :
  Forall P es -> P (k, e) -> Forall P (set_entry k e es).
Proof.
  intros Hes He. induction Hes as [|[k' e'] r Hx Hr IH]; simpl; [auto|].
  destruct (k =? k'); constructor; auto.
Qed.

(** The memory-and-store invariant of C7. *)
Definition world_wf (w : world) : Prop :=
  Forall session_wf (sessions (td w)) /\ file_wf (file w).

Lemma saveData_wf (w : world) : world_wf w -> world_wf (fst (saveData w)).
Proof.
  intros [Hs Hf]. unfold world_wf, saveData.
  destruct (file w) as [| |[es| |]] eqn:E; simpl; split; try exact Hs;
    try (rewrite E; exact I).
  - constructor; [exact Hs|constructor].
  - apply set_entry_Forall; [exact Hf|exact Hs].
Qed.

Lemma world_wf_push (w : world) (d : tracking_data) (s : session) :
  world_wf w -> sessions d = sessions (td w) -> session_wf s ->
  world_wf (set_td (set_sessions (sessions d ++ [s]) d) w).
Proof.
  intros [Hs Hf] Hd Hw. split; [simpl; rewrite Hd; apply Forall_app; auto|exact Hf].
Qed.

Ltac world_wf_simpl :=
  unfold world_wf in *; simpl in *;
  repeat match goal with H : _ /\ _ |- _ => destruct H end;
  try (split; assumption).

Lemma commitSession_wf (i : tick_input) (w : world) :
  Forall session_wf (pushes (snd (commitSession i w)))
  /\ (world_wf w -> world_wf (fst (commitSession i w))).
Proof.
  unfold commitSession.
  destruct (isTracking (td w)); [|split; [constructor|auto]].
  destruct (start_truthy _); [|split; [constructor|intros; world_wf_simpl]].
  destruct (0 <? _) eqn:Hd.
  - apply Z.ltb_lt, new_session_wf in Hd.
    match goal with
    | |- context [saveData ?X] =>
        pose proof (saveData_wf X) as Hw; pose proof (saveData_pushes X) as Hp;
        destruct (saveData X) as [w2 ev2]
    end.
    simpl in Hp |- *. rewrite Hp. split; [constructor; [exact Hd|constructor]|].
    intros Hw0. apply Hw. apply world_wf_push; auto.
  - split; [constructor|intros; world_wf_simpl].
Qed.

Lemma pre_wf (tz : Z) (i : tick_input) (w : world) :
  Forall session_wf (pushes (snd (checkActivity_pre tz i w)))
  /\ (world_wf w -> world_wf (fst (checkActivity_pre tz i w))).
Proof.
  unfold checkActivity_pre.
  destruct (_ =? _); [split; [constructor|auto]|].
  destruct (isTracking (td w) && start_truthy (currentSessionStart (td w))).
  - destruct (0 <? _) eqn:Hd.
    + apply Z.ltb_lt, new_session_wf in Hd.
      match goal with
      | |- context [saveData ?X] =>
          pose proof (saveData_wf X) as Hw; pose proof (saveData_pushes X) as Hp;
          destruct (saveData X) as [w2 ev2]
      end.
      simpl in Hp |- *. rewrite Hp. split; [constructor; [exact Hd|constructor]|].
      intros Hw0. destruct (Hw (world_wf_push _ _ _ Hw0 eq_refl Hd)) as [_ Hf].
      split; [constructor|exact Hf].
    + match goal with
      | |- context [saveData ?X] =>
          pose proof (saveData_wf X) as Hw; pose proof (saveData_pushes X) as Hp;
          destruct (saveData X) as [w2 ev2]
      end.
      simpl in Hp |- *. rewrite Hp. split; [constructor|].
      intros Hw0. assert (Hw1 : world_wf (set_td (td w) w)) by world_wf_simpl.
      destruct (Hw Hw1) as [_ Hf]. split; [constructor|exact Hf].
  - pose proof (saveData_wf w) as Hw; pose proof (saveData_pushes w) as Hp.
    destruct (saveData w) as [w1 ev1]. simpl in Hp |- *. rewrite Hp.
    split; [constructor|]. intros Hw0. destruct (Hw Hw0) as [_ Hf].
    split; [constructor|exact Hf].
Qed.

Lemma checkNotifications_pushes (t : Z) (n : notifications) :
  pushes (snd (checkNotifications t n)) = [].
Proof.
  destruct n as [a b c]. unfold checkNotifications. simpl.
  destruct a, b, c, (21600 <=? t), (28800 <=? t), (36000 <=? t); reflexivity.
Qed.

Lemma post_wf (tz : Z) (i : tick_input) (w : world) :
  Forall session_wf (pushes (snd (checkActivity_post tz i w)))
  /\ (world_wf w -> world_wf (fst (checkActivity_post tz i w))).
Proof.
  unfold checkActivity_post.
  destruct (getIdleTime _ _ _) as [idle uf].
  destruct (isWorking_of _ idle).
  - match goal with
    | |- context [checkNotifications ?t ?n] =>
        pose proof (checkNotifications_pushes t n) as Hp;
        destruct (checkNotifications t n) as [ns ev3]
    end.
    simpl in Hp |- *. rewrite !pushes_app, Hp. split; [constructor|].
    intros Hw0. destruct (isTracking (td w)); world_wf_simpl.
  - destruct (commitSession_wf i (set_useFallback uf w)) as [Hc Hcw].
    destruct (commitSession i (set_useFallback uf w)) as [w2 ev2].
    match goal with
    | |- context [checkNotifications ?t ?n] =>
        pose proof (checkNotifications_pushes t n) as Hp;
        destruct (checkNotifications t n) as [ns ev3]
    end.
    simpl in Hp, Hc, Hcw |- *. rewrite !pushes_app, Hp. simpl.
    rewrite app_nil_r. split; [exact Hc|].
    intros Hw0. assert (Hw1 : world_wf (set_useFallback uf w)) by world_wf_simpl.
    destruct (Hcw Hw1) as [Hs Hf]. split; assumption.
Qed.

(** C7: every session a step appends to [sessions] (at a pause commit or
    at a rollover split) has [start < end] and
    [duration = floor((end - start)/1000) > 0]; and a step keeps
    [sessions] and every day record it writes to the store free of any
    other session: zero or negative durations are neither appended nor
    persisted. *)
Theorem C7_appended_sessions_wf (tz : Z) (i : tick_input) (w : world) :
  Forall session_wf (pushes (snd (checkActivity tz i w)))
  /\ (Forall session_wf (sessions (td w)) -> file_wf (file w) ->
      Forall session_wf (sessions (td (fst (checkActivity tz i w))))
      /\ file_wf (file (fst (checkActivity tz i w)))).
Proof.
  unfold checkActivity.
  destruct (pre_wf tz i w) as [Hp1 Hw1].
  destruct (checkActivity_pre tz i w) as [w1 ev1].
  destruct (post_wf tz i w1) as [Hp2 Hw2].
  destruct (checkActivity_post tz i w1) as [w2 ev2]. simpl in *.
  split.
  - rewrite pushes_app. apply Forall_app. auto.
  - intros Hs Hf. apply Hw2, Hw1. split; assumption.
Qed.

Lemma C7_appended_sessions_wf_witness :
  Forall session_wf (sessions (td rollover_world))
  /\ file_wf (file rollover_world)
  /\ Forall session_wf (pushes (snd (checkActivity brt rollover_tick rollover_world)))
  /\ Forall session_wf (sessions (td (fst (checkActivity brt rollover_tick rollover_world)))).
Proof.
  assert (Hs : Forall session_wf (sessions (td rollover_world))) by constructor.
  assert (Hf : file_wf (file rollover_world)) by exact I.
  destruct (C7_appended_sessions_wf brt rollover_tick rollover_world) as [Hp Hw].
  destruct (Hw Hs Hf) as [Hs' _].
  repeat split; assumption.
Defined.

(** ** The store *)

(** The object [saveData] starts from: [{}] for an absent file, the parsed
    object for an object document, none otherwise. *)
Definition file_object (f : file_state) : option (list (Z * entry)) :=
  match f with
  | FMissing => Some []
  | FJson (TObj es) => Some es
  | _ => None
  end.

Lemma get_set_entry_same (k : Z) (e : entry) (es : list (Z * entry)) :
  get_entry k (set_entry k e es) = Some e.
Proof.
  induction es as [|[k' e'] r IH]; simpl; [now rewrite Z.eqb_refl|].
  destruct (Z.eqb_spec k k'); simpl; [now rewrite Z.eqb_refl|].
  rewrite (proj2 (Z.eqb_neq k k')) by assumption. exact IH.
Qed.

Lemma get_set_entry_other (k k' : Z) (e : entry) (es : list (Z * entry)) :
  k' <> k -> get_entry k' (set_entry k e es) = get_entry k' es.
Proof.
  intros Hne. induction es as [|[k'' e'] r IH]; simpl.
  - rewrite (proj2 (Z.eqb_neq k' k)) by assumption. reflexivity.
  - destruct (Z.eqb_spec k k''); simpl.
    + subst k''. rewrite (proj2 (Z.eqb_neq k' k)) by assumption. reflexivity.
    + destruct (k' =? k''); [reflexivity|exact IH].
Qed.

Lemma filter_set_entry (k : Z) (e : entry) (es : list (Z * entry)) :
  filter (fun ke => negb (fst ke =? k)) (set_entry k e es)
  = filter (fun ke => negb (fst ke =? k)) es.
Proof.
  induction es as [|[k' e'] r IH]; simpl; [now rewrite Z.eqb_refl|].
  destruct (Z.eqb_spec k k'); simpl.
  - subst k'. rewrite Z.eqb_refl. reflexivity.
  - rewrite (proj2 (Z.eqb_neq k' k)) by congruence. simpl. now rewrite IH.
Qed.

(** C8: [saveData] is a whole-file read-modify-write of the one entry
    keyed by [currentDate]: starting from the object read afresh ([{}] when
    the file is absent) it writes back an object whose [currentDate] entry
    is the new day record and whose other entries are those read, with the
    same values in the same order (so [JSON.stringify] renders them as
    before); when the file does not hold an object (unreadable, corrupt,
    [null], another JSON value) the file is left as it was.  The tracking
    state is not touched. *)
Theorem C8_save_rewrites_one_entry (w : world) :
  let k := currentDate (td w) in
  let rec := EDay (day_total (sessions (td w))) (Some (sessions (td w))) in
  let '(w', evs) := saveData w in
  td w' = td w
  /\ match file_object (file w) with
     | Some es =>
         evs = [EvSaved k]
         /\ exists es', file w' = FJson (TObj es')
            /\ get_entry k es' = Some rec
            /\ (forall k', k' <> k -> get_entry k' es' = get_entry k' es)
            /\ filter (fun ke => negb (fst ke =? k)) es'
               = filter (fun ke => negb (fst ke =? k)) es
     | None => file w' = file w
     end.
Proof.
  intros k rec. unfold saveData.
  destruct (file w) as [| |[es| |]] eqn:E; simpl; split; auto; try (rewrite E; reflexivity).
  - split; [reflexivity|]. exists [(k, rec)]. repeat split.
    + simpl. now rewrite Z.eqb_refl.
    + intros k' Hk. simpl. now rewrite (proj2 (Z.eqb_neq k' k)).
    + simpl. now rewrite Z.eqb_refl.
  - split; [reflexivity|]. exists (set_entry k rec es). repeat split.
    + apply get_set_entry_same.
    + intros k' Hk. now apply get_set_entry_other.
    + apply filter_set_entry.
Qed.

(** C9: loading never fails the caller.  At start-up an absent store
    leaves today's sessions empty, an unreadable or corrupt one is logged
    and leaves them empty as well; in general the sessions are today's
    stored ones when the store holds a day record with sessions for today,
    and empty in every other case.  The [get-history] handler answers
    [{}] for an absent, unreadable or corrupt store. *)
Theorem C9_load_fails_soft (tz t0 t1 : Z) (uf : bool) :
  (let '(w, evs) := startup tz t0 t1 FMissing uf in sessions (td w) = [] /\ evs = [])
  /\ (let '(w, evs) := startup tz t0 t1 FUnparsable uf in
      sessions (td w) = [] /\ evs = [EvLog])
  /\ (forall f, sessions (td (fst (startup tz t0 t1 f uf)))
               = match file_object f with
                 | Some es =>
                     match get_entry (getLocalDateStr tz t1) es with
                     | Some (EDay _ (Some ss)) => ss
                     | _ => []
                     end
                 | None => []
                 end)
  /\ get_history FMissing = TObj []
  /\ get_history FUnparsable = TObj [].
Proof.
  repeat split.
  intros f. unfold startup, loadData. simpl.
  destruct f as [| |[es| |]]; simpl; try reflexivity.
  destruct (get_entry _ es) as [[? [ss|]| |]|]; reflexivity.
Qed.

(** The store after seven hours of work on 2026-10-20 (01:00 to 08:00). *)
Definition stored_file : file_state :=
  FJson (TObj [(20746, EDay 25200
                 (Some [Session (midnight_20_oct_2026 + 3600000)
                                (midnight_20_oct_2026 + 28800000) 25200]))]).

(** The process restarted at 09:00 the same day, first tick a second later
    with Chrome in use. *)
Definition restart_time : Z := midnight_20_oct_2026 + 32400000.

Definition restart_tick : tick_input :=
  tick_at (restart_time + 1000) (ChromeOut true) (Some 0) PsErr.

(** C10: the notification flags are not part of the store: whatever the
    file holds, start-up leaves all three cleared.  So after a restart on
    a day whose stored total already exceeds six hours, the first tick
    shows the six-hour notification again. *)
Theorem C10_flags_not_restored (tz t0 t1 : Z) (f : file_state) (uf : bool) :
  notificationsSent (td (fst (startup tz t0 t1 f uf))) = no_notifications
  /\ day_total (match stored_file with
                | FJson (TObj [(_, EDay _ (Some ss))]) => ss
                | _ => []
                end) >= 21600
  /\ sessions (td (fst (startup brt restart_time restart_time stored_file false)))
     <> []
  /\ count_notify H6 (snd (checkActivity brt restart_tick
                            (fst (startup brt restart_time restart_time stored_file false))))
     = 1%nat.
Proof.
  split.
  - unfold startup, loadData. simpl.
    destruct f as [| |[es| |]]; simpl; try reflexivity.
    destruct (get_entry _ es) as [[? [ss|]| |]|]; reflexivity.
  - vm_compute. repeat split; discriminate.
Qed.

(** * Further properties of the main process *)

(** ** The idle sensor's fallback switch *)

Lemma commitSession_useFallback (i : tick_input) (w : world) :
  useFallback (fst (commitSession i w)) = useFallback w.
Proof.
  unfold commitSession.
  destruct (isTracking (td w)); [|reflexivity].
  destruct (start_truthy _); [|reflexivity].
  destruct (0 <? _); [|reflexivity].
  match goal with
  | |- context [saveData ?X] =>
      pose proof (saveData_useFallback X) as H; destruct (saveData X)
  end.
  exact H.
Qed.

Lemma pre_useFallback (tz : Z) (i : tick_input) (w : world) :
  useFallback (fst (checkActivity_pre tz i w)) = useFallback w.
Proof.
  unfold checkActivity_pre.
  destruct (_ =? _); [reflexivity|].
  destruct (_ && _); [destruct (0 <? _)|];
    match goal with
    | |- context [saveData ?X] =>
        pose proof (saveData_useFallback X) as H; destruct (saveData X)
    end; exact H.
Qed.

Lemma post_useFallback (tz : Z) (i : tick_input) (w : world) :
  useFallback (fst (checkActivity_post tz i w))
  = snd (getIdleTime (useFallback w) (idle_native i) (idle_ps i)).
Proof.
  unfold checkActivity_post.
  destruct (getIdleTime _ _ _) as [idle uf].
  destruct (isWorking_of _ idle).
  - destruct (checkNotifications _ _). reflexivity.
  - pose proof (commitSession_useFallback i (set_useFallback uf w)) as H.
    destruct (commitSession i (set_useFallback uf w)).
    destruct (checkNotifications _ _). exact H.
Qed.

(** The switch to the PowerShell fallback is one-way: once set it stays
    set over any run of steps; a step whose [desktop-idle] call throws sets
    it; and while it is unset and [desktop-idle] answers, it stays unset
    and that answer is the idle time the step uses. *)
Theorem X_idle_fallback_latch (tz : Z) (is : list tick_input) (w : world) :
  (useFallback w = true -> useFallback (fst (run tz is w)) = true)
  /\ (forall i, idle_native i = None ->
      useFallback (fst (checkActivity tz i w)) = true)
  /\ (forall i ms, useFallback w = false -> idle_native i = Some ms ->
      useFallback (fst (checkActivity tz i w)) = false
      /\ fst (getIdleTime (useFallback (fst (checkActivity_pre tz i w)))
                (idle_native i) (idle_ps i)) = ms).
Proof.
  assert (Hstep : forall i w, useFallback (fst (checkActivity tz i w))
            = snd (getIdleTime (useFallback w) (idle_native i) (idle_ps i))).
  { intros i w0. unfold checkActivity.
    pose proof (pre_useFallback tz i w0) as Hp.
    destruct (checkActivity_pre tz i w0) as [w1 ev1]. simpl in Hp.
    pose proof (post_useFallback tz i w1) as Hq.
    destruct (checkActivity_post tz i w1) as [w2 ev2]. simpl in *.
    rewrite Hq, Hp. reflexivity. }
  split; [|split].
  - revert w. induction is as [|i r IH]; intros w0 H; [exact H|].
    simpl. pose proof (Hstep i w0) as Hs.
    destruct (checkActivity tz i w0) as [w1 ev1]. simpl in Hs.
    assert (H1 : useFallback w1 = true)
      by (rewrite Hs, H; reflexivity).
    specialize (IH w1 H1). destruct (run tz r w1). exact IH.
  - intros i Hn. rewrite Hstep. unfold getIdleTime.
    destruct (useFallback w); [reflexivity|]. rewrite Hn. reflexivity.
  - intros i ms Hu Hn. rewrite Hstep, pre_useFallback, Hu. unfold getIdleTime.
    rewrite Hn. split; reflexivity.
Qed.

Lemma X_idle_fallback_latch_witness :
  useFallback (idle_world 0 true) = true
  /\ useFallback (fst (run 0 [tick_at 5 ChromeErr (Some 0) PsErr] (idle_world 0 true))) = true.
Proof.
  split; [reflexivity|].
  apply (proj1 (X_idle_fallback_latch 0 [tick_at 5 ChromeErr (Some 0) PsErr]
                  (idle_world 0 true))).
  reflexivity.
Defined.

(** ** Notification thresholds *)

Definition threshold_seconds (h : threshold) : Z :=
  match h with H6 => 21600 | H8 => 28800 | H10 => 36000 end.

(** [checkNotifications] sets each flag exactly when the total reaches its
    threshold, never clears one, and shows a notification exactly when its
    flag goes from unset to set. *)
Theorem X_checkNotifications_flags (h : threshold) (total : Z) (n : notifications) :
  flag h (fst (checkNotifications total n))
  = flag h n || (threshold_seconds h <=? total)
  /\ count_notify h (snd (checkNotifications total n))
     = if negb (flag h n) && (threshold_seconds h <=? total) then 1%nat else 0%nat.
Proof.
  destruct n as [a b c]. unfold checkNotifications. simpl.
  destruct h, a, b, c; simpl;
  destruct (21600 <=? total), (28800 <=? total), (36000 <=? total);
  split; reflexivity.
Qed.

(** ** One step, case by case *)

Definition is_saved (e : event) : bool :=
  match e with EvSaved _ => true | _ => false end.

(** How many times [evs] writes the store file. *)
Definition writes (evs : list event) : nat := length (filter is_saved evs).

Lemma writes_app (a b : list event) : writes (a ++ b) = (writes a + writes b)%nat.
Proof. unfold writes. now rewrite filter_app, length_app. Qed.

Lemma checkNotifications_writes (t : Z) (n : notifications) :
  writes (snd (checkNotifications t n)) = 0%nat /\ pushes (snd (checkNotifications t n)) = [].
Proof.
  destruct n as [a b c]. unfold checkNotifications. simpl.
  destruct a, b, c, (21600 <=? t), (28800 <=? t), (36000 <=? t); split; reflexivity.
Qed.

(** The status and last-activity time a step shows: [Tracking (Working)]
    and the tick's time while working; otherwise [Paused (Idle)] when
    Chrome is running and [Paused (Chrome Closed)] when it is not, with the
    last activity placed the idle time before the tick. *)
Theorem X_post_status_lastActive (tz : Z) (i : tick_input) (w : world) :
  let w' := fst (checkActivity_post tz i w) in
  status_ (td w') = (if tick_working i w then TrackingWorking
                     else if isChromeRunning (chrome i) then PausedIdle
                     else PausedChromeClosed)
  /\ lastActiveTime (td w')
     = (if tick_working i w then t_display i
        else t_display i - fst (getIdleTime (useFallback w) (idle_native i) (idle_ps i))).
Proof.
  unfold checkActivity_post, tick_working.
  destruct (getIdleTime _ _ _) as [idle uf]; simpl fst.
  destruct (isWorking_of _ idle).
  - destruct (checkNotifications _ _). split; reflexivity.
  - destruct (commitSession i (set_useFallback uf w)).
    destruct (checkNotifications _ _). simpl.
    destruct (isChromeRunning (chrome i)); split; reflexivity.
Qed.

(** A working tick opens a session only when none is being tracked, at the
    tick's time; while work continues the open session keeps its start.
    A working tick appends nothing and does not write the store. *)
Theorem X_working_tick_keeps_session (tz : Z) (i : tick_input) (w : world) :
  tick_working i w = true ->
  let '(w', evs) := checkActivity_post tz i w in
  isTracking (td w') = true
  /\ currentSessionStart (td w')
     = (if isTracking (td w) then currentSessionStart (td w) else Some (t_start i))
  /\ sessions (td w') = sessions (td w)
  /\ file w' = file w
  /\ pushes evs = []
  /\ writes evs = 0%nat.
Proof.
  intros Hw. unfold checkActivity_post. unfold tick_working in Hw.
  destruct (getIdleTime _ _ _) as [idle uf]. simpl in Hw. rewrite Hw.
  match goal with
  | |- context [checkNotifications ?t ?n] =>
      pose proof (checkNotifications_writes t n) as [Hwr Hp];
      destruct (checkNotifications t n) as [ns ev3]
  end.
  simpl in *. rewrite !pushes_app, !writes_app, Hp, Hwr.
  destruct (isTracking (td w)) eqn:Et; simpl; repeat split; exact Et.
Qed.

Lemma X_working_tick_keeps_session_witness :
  tick_working day_tick day_world = true
  /\ currentSessionStart (td (fst (checkActivity_post brt day_tick day_world)))
     = currentSessionStart (td day_world).
Proof.
  assert (Hw : tick_working day_tick day_world = true) by reflexivity.
  split; [exact Hw|].
  pose proof (X_working_tick_keeps_session brt day_tick day_world Hw) as H.
  destruct (checkActivity_post brt day_tick day_world) as [w' evs].
  destruct H as [_ [H _]]. exact H.
Defined.

Lemma saveData_file_ext (w1 w2 : world) :
  currentDate (td w1) = currentDate (td w2) ->
  sessions (td w1) = sessions (td w2) ->
  file w1 = file w2 ->
  file (fst (saveData w1)) = file (fst (saveData w2)) /\ snd (saveData w1) = snd (saveData w2).
Proof.
  intros Hd Hs Hf. unfold saveData. rewrite Hd, Hs, Hf.
  destruct (file w2) as [| |[]] eqn:E; simpl; rewrite ?Hf, ?E; auto.
Qed.

(** A pause: when a tick is not working while a session is open, the
    session is closed at the tick ([isTracking] false, start cleared); it
    is appended as [[start, now]] with its floored duration and the store
    is written at once exactly when that duration is positive, otherwise
    nothing is appended and nothing written. *)
Theorem X_pause_commits_session (tz : Z) (i : tick_input) (w : world) :
  tick_working i w = false ->
  isTracking (td w) = true ->
  start_truthy (currentSessionStart (td w)) = true ->
  let st := start_value (currentSessionStart (td w)) in
  let dur := (t_commit i - st) / 1000 in
  let added := if 0 <? dur then [Session st (t_commit i) dur] else [] in
  let '(w', evs) := checkActivity_post tz i w in
  isTracking (td w') = false
  /\ currentSessionStart (td w') = None
  /\ sessions (td w') = sessions (td w) ++ added
  /\ pushes evs = added
  /\ file w' = (if 0 <? dur
                then file (fst (saveData (set_td (set_sessions (sessions (td w) ++ added) (td w)) w)))
                else file w).
Proof.
  intros Hw Ht Hs st dur added.
  unfold checkActivity_post. unfold tick_working in Hw.
  destruct (getIdleTime _ _ _) as [idle uf]. simpl in Hw. rewrite Hw.
  unfold commitSession. simpl. rewrite Ht, Hs. fold st dur.
  unfold added; clear added.
  destruct (0 <? dur).
  - match goal with
    | |- context [saveData ?X] =>
        pose proof (saveData_td X) as Htd; pose proof (saveData_pushes X) as Hp;
        pose proof (saveData_file_ext X
                      (set_td (set_sessions (sessions (td w) ++
                         [Session st (t_commit i) dur]) (td w)) w)
                      eq_refl eq_refl eq_refl) as [Hf _];
        destruct (saveData X) as [w2 ev2]
    end.
    match goal with
    | |- context [checkNotifications ?t ?n] =>
        pose proof (checkNotifications_writes t n) as [_ Hp3];
        destruct (checkNotifications t n) as [ns ev3]
    end.
    simpl in *. rewrite !pushes_app, Hp3. simpl. rewrite Hp.
    rewrite Htd. repeat split. exact Hf.
  - match goal with
    | |- context [checkNotifications ?t ?n] =>
        pose proof (checkNotifications_writes t n) as [_ Hp3];
        destruct (checkNotifications t n) as [ns ev3]
    end.
    simpl in *. rewrite !pushes_app, Hp3, app_nil_r. repeat split.
Qed.

Lemma X_pause_commits_session_witness :
  let i := tick_at (midnight_20_oct_2026 + 400) (ChromeOut false) (Some 0) PsErr in
  let w := tracking_world 20746 (midnight_20_oct_2026 - 10000) in
  tick_working i w = false /\ isTracking (td w) = true
  /\ start_truthy (currentSessionStart (td w)) = true
  /\ isTracking (td (fst (checkActivity_post brt i w))) = false.
Proof.
  intros i w.
  assert (H1 : tick_working i w = false) by reflexivity.
  assert (H2 : isTracking (td w) = true) by reflexivity.
  assert (H3 : start_truthy (currentSessionStart (td w)) = true) by reflexivity.
  pose proof (X_pause_commits_session brt i w H1 H2 H3) as H.
  cbv zeta in H. destruct (checkActivity_post brt i w) as [w' evs].
  destruct H as [H _]. repeat split; assumption.
Defined.

Lemma commitSession_sessions (i : tick_input) (w : world) :
  sessions (td (fst (commitSession i w))) = sessions (td w) ++ pushes (snd (commitSession i w))
  /\ (pushes (snd (commitSession i w)) = [] ->
      file (fst (commitSession i w)) = file w /\ writes (snd (commitSession i w)) = 0%nat).
Proof.
  unfold commitSession.
  destruct (isTracking (td w)); [|simpl; rewrite app_nil_r; auto].
  destruct (start_truthy _); [|simpl; rewrite app_nil_r; auto].
  destruct (0 <? _).
  - match goal with
    | |- context [saveData ?X] =>
        pose proof (saveData_td X) as Htd; pose proof (saveData_pushes X) as Hp;
        destruct (saveData X) as [w2 ev2]
    end.
    simpl in *. rewrite Htd, Hp. split; [reflexivity|discriminate].
  - simpl. rewrite app_nil_r. auto.
Qed.

Lemma post_sessions (tz : Z) (i : tick_input) (w : world) :
  sessions (td (fst (checkActivity_post tz i w)))
  = sessions (td w) ++ pushes (snd (checkActivity_post tz i w))
  /\ (tick_working i w = true \/ isTracking (td w) = false ->
      file (fst (checkActivity_post tz i w)) = file w
      /\ writes (snd (checkActivity_post tz i w)) = 0%nat).
Proof.
  unfold checkActivity_post, tick_working.
  destruct (getIdleTime _ _ _) as [idle uf]. cbn [fst].
  destruct (isWorking_of _ idle).
  - match goal with
    | |- context [checkNotifications ?t ?n] =>
        pose proof (checkNotifications_writes t n) as [Hw3 Hp3];
        destruct (checkNotifications t n) as [ns ev3]
    end.
    cbn -[pushes writes] in *. rewrite !pushes_app, !writes_app, Hp3, Hw3. simpl.
    destruct (isTracking (td w)); simpl; rewrite ?app_nil_r; auto.
  - destruct (commitSession_sessions i (set_useFallback uf w)) as [Hs Hq].
    assert (Hquiet : isTracking (td w) = false ->
                     commitSession i (set_useFallback uf w) = (set_useFallback uf w, []))
      by (intros Ht; unfold commitSession; simpl; rewrite Ht; reflexivity).
    destruct (commitSession i (set_useFallback uf w)) as [w2 ev2] eqn:Ec.
    match goal with
    | |- context [checkNotifications ?t ?n] =>
        pose proof (checkNotifications_writes t n) as [Hw3 Hp3];
        destruct (checkNotifications t n) as [ns ev3]
    end.
    cbn -[pushes writes] in *. rewrite !pushes_app, !writes_app, Hp3, Hw3. simpl.
    rewrite app_nil_r. split; [exact Hs|].
    intros [H|Ht]; [discriminate|].
    specialize (Hquiet Ht). inversion Hquiet; subst. simpl. auto.
Qed.

(** After any step, [currentDate] is the local date the step read at its
    start: the tracker's day always follows the clock. *)
Theorem X_step_date_follows_clock (tz : Z) (i : tick_input) (w : world) :
  currentDate (td (fst (checkActivity tz i w))) = getLocalDateStr tz (t_today i).
Proof.
  unfold checkActivity.
  destruct (Z.eqb_spec (getLocalDateStr tz (t_today i)) (currentDate (td w))) as [He|Hne].
  - rewrite pre_same_day by exact He.
    destruct (post_frame H6 tz i w) as [Hd _].
    destruct (checkActivity_post tz i w). simpl in *. congruence.
  - destruct (pre_rollover H6 tz i w Hne) as [Hd1 _].
    destruct (checkActivity_pre tz i w) as [w1 ev1]. simpl in Hd1.
    destruct (post_frame H6 tz i w1) as [Hd _].
    destruct (checkActivity_post tz i w1). simpl in *. congruence.
Qed.

(** Within a day, [sessions] is append-only: a step on the same local date
    leaves it as it was followed by the sessions the step pushed.  A step
    that neither pauses an open session nor crosses midnight (working, or
    not tracking) does not write the store. *)
Theorem X_same_day_step_append_only (tz : Z) (i : tick_input) (w : world) :
  getLocalDateStr tz (t_today i) = currentDate (td w) ->
  let '(w', evs) := checkActivity tz i w in
  sessions (td w') = sessions (td w) ++ pushes evs
  /\ (tick_working i w = true \/ isTracking (td w) = false ->
      file w' = file w /\ writes evs = 0%nat).
Proof.
  intros He. unfold checkActivity. rewrite pre_same_day by exact He.
  destruct (post_sessions tz i w) as [Hs Hq].
  destruct (checkActivity_post tz i w) as [w2 ev2]. simpl in *. auto.
Qed.

Lemma X_same_day_step_append_only_witness :
  getLocalDateStr brt (t_today day_tick) = currentDate (td day_world)
  /\ file (fst (checkActivity brt day_tick day_world)) = file day_world.
Proof.
  assert (He : getLocalDateStr brt (t_today day_tick) = currentDate (td day_world))
    by reflexivity.
  split; [exact He|].
  pose proof (X_same_day_step_append_only brt day_tick day_world He) as H.
  destruct (checkActivity brt day_tick day_world) as [w' evs].
  destruct H as [_ H]. apply H. left. reflexivity.
Defined.

(** Midnight with no open session: the old day's sessions are saved under
    the old date, then [sessions] is emptied, the date moves on and the
    flags are cleared; nothing is appended and no session is opened. *)
Theorem X_rollover_without_session (tz : Z) (i : tick_input) (w : world) :
  getLocalDateStr tz (t_today i) <> currentDate (td w) ->
  isTracking (td w) && start_truthy (currentSessionStart (td w)) = false ->
  let '(w', evs) := checkActivity_pre tz i w in
  evs = snd (saveData w)
  /\ file w' = file (fst (saveData w))
  /\ sessions (td w') = []
  /\ currentDate (td w') = getLocalDateStr tz (t_today i)
  /\ notificationsSent (td w') = no_notifications
  /\ isTracking (td w') = isTracking (td w)
  /\ currentSessionStart (td w') = currentSessionStart (td w).
Proof.
  intros Hd Ho. unfold checkActivity_pre.
  rewrite (proj2 (Z.eqb_neq _ _) Hd), Ho.
  pose proof (saveData_td w) as Htd.
  destruct (saveData w) as [w1 ev1]. simpl in *. rewrite Htd.
  repeat split.
Qed.

Lemma X_rollover_without_session_witness :
  getLocalDateStr brt (t_today rollover_tick) <> currentDate (td (idle_world 20745 false))
  /\ isTracking (td (idle_world 20745 false))
     && start_truthy (currentSessionStart (td (idle_world 20745 false))) = false
  /\ sessions (td (fst (checkActivity_pre brt rollover_tick (idle_world 20745 false)))) = [].
Proof.
  assert (Hd : getLocalDateStr brt (t_today rollover_tick)
               <> currentDate (td (idle_world 20745 false)))
    by (vm_compute; discriminate).
  assert (Ho : isTracking (td (idle_world 20745 false))
               && start_truthy (currentSessionStart (td (idle_world 20745 false))) = false)
    by reflexivity.
  pose proof (X_rollover_without_session brt rollover_tick (idle_world 20745 false) Hd Ho) as H.
  destruct (checkActivity_pre brt rollover_tick (idle_world 20745 false)) as [w' evs].
  destruct H as [_ [_ [H _]]]. repeat split; assumption.
Defined.

(** ** Aggregate bounds *)

(** A session's share of a day's total is between 0 and 86400 seconds,
    so the published total is never negative and each session (the open
    one included) adds at most one day. *)
Theorem X_total_bounds (sod s e cn : Z) (d : tracking_data) :
  0 <= overlap sod (sod + ms_per_day) s e <= 86400
  /\ 0 <= totalSecondsFunc sod (sod + ms_per_day) d cn
       <= 86400 * (Z.of_nat (length (sessions d)) + 1).
Proof.
  assert (Hov : forall s e, 0 <= overlap sod (sod + ms_per_day) s e <= 86400).
  { intros s' e'. rewrite overlap_spec_clip. unfold spec_clip, ms_per_day.
    split; [apply Z.div_pos; lia|].
    apply Z.div_le_upper_bound; [lia|]. lia. }
  split; [apply Hov|].
  unfold totalSecondsFunc. rewrite fold_left_add_fold_right.
  assert (Hsum : 0 <= fold_right (fun s acc => overlap sod (sod + ms_per_day) (start s) (end_ s) + acc)
                         0 (sessions d)
                 <= 86400 * Z.of_nat (length (sessions d))).
  { induction (sessions d) as [|x l IH]; simpl; [lia|].
    pose proof (Hov (start x) (end_ x)). lia. }
  destruct (isTracking d && start_truthy (currentSessionStart d));
    [pose proof (Hov (start_value (currentSessionStart d)) cn)|]; lia.
Qed.

(** ** Store round trips *)

Lemma set_entry_idem (k : Z) (e : entry) (es : list (Z * entry)) :
  set_entry k e (set_entry k e es) = set_entry k e es.
Proof.
  induction es as [|[k' e'] r IH]; simpl; [now rewrite Z.eqb_refl|].
  destruct (Z.eqb_spec k k'); simpl; [now rewrite Z.eqb_refl|].
  rewrite (proj2 (Z.eqb_neq k k')) by assumption. now rewrite IH.
Qed.

Lemma set_entry_found (k : Z) (e : entry) (es : list (Z * entry)) :
  get_entry k es = Some e -> set_entry k e es = es.
Proof.
  induction es as [|[k' e'] r IH]; simpl; [discriminate|].
  destruct (Z.eqb_spec k k'); [intros H; inversion H; subst; reflexivity|].
  intros H. now rewrite IH.
Qed.

(** Saving twice in a row writes the same file as saving once. *)
Theorem X_save_idempotent (w : world) :
  file (fst (saveData (fst (saveData w)))) = file (fst (saveData w)).
Proof.
  destruct (file w) as [| |[es| |]] eqn:E; unfold saveData at 2 3; rewrite E;
    cbn [fst]; unfold saveData; cbn [fst file set_file td]; rewrite ?E; try reflexivity.
  - simpl. now rewrite Z.eqb_refl.
  - simpl. now rewrite E.
  - now rewrite set_entry_idem.
  - simpl. now rewrite E.
  - simpl. now rewrite E.
Qed.

(** Save then load: after a save that reached the disk as an object, a
    restart on the same local day loads back exactly the sessions that
    were saved. *)
Theorem X_save_then_load (tz t0 t1 : Z) (uf : bool) (w : world) :
  getLocalDateStr tz t1 = currentDate (td w) ->
  file_object (file w) <> None ->
  sessions (td (fst (startup tz t0 t1 (file (fst (saveData w))) uf))) = sessions (td w).
Proof.
  intros Ht Hf. unfold startup, loadData, saveData.
  destruct (file w) as [| |[es| |]]; simpl in *; try congruence.
  - rewrite Ht, Z.eqb_refl. reflexivity.
  - rewrite Ht, get_set_entry_same. reflexivity.
Qed.

Lemma X_save_then_load_witness :
  getLocalDateStr brt restart_time = currentDate (td day_world)
  /\ file_object (file day_world) <> None
  /\ sessions (td (fst (startup brt restart_time restart_time
                          (file (fst (saveData day_world))) false)))
     = sessions (td day_world).
Proof.
  assert (H1 : getLocalDateStr brt restart_time = currentDate (td day_world)) by reflexivity.
  assert (H2 : file_object (file day_world) <> None) by discriminate.
  split; [exact H1|]. split; [exact H2|].
  exact (X_save_then_load brt restart_time restart_time false day_world H1 H2).
Defined.

(** Load then save: when the store holds, for today, a day record whose
    [total] is the sum of its sessions' durations, starting up and saving
    before any change writes back the file unchanged. *)
Theorem X_load_then_save (tz t0 t1 : Z) (uf : bool) (es : list (Z * entry))
  (ss : list session) :
  get_entry (getLocalDateStr tz t1) es = Some (EDay (day_total ss) (Some ss)) ->
  file (fst (saveData (fst (startup tz t0 t1 (FJson (TObj es)) uf)))) = FJson (TObj es).
Proof.
  intros He. unfold startup, loadData. simpl. rewrite He. simpl.
  unfold saveData. simpl. rewrite set_entry_found by exact He. reflexivity.
Qed.

Lemma X_load_then_save_witness :
  get_entry (getLocalDateStr brt restart_time)
    [(20746, EDay 25200 (Some [Session (midnight_20_oct_2026 + 3600000)
                                  (midnight_20_oct_2026 + 28800000) 25200]))]
  = Some (EDay (day_total [Session (midnight_20_oct_2026 + 3600000)
                              (midnight_20_oct_2026 + 28800000) 25200])
            (Some [Session (midnight_20_oct_2026 + 3600000)
                     (midnight_20_oct_2026 + 28800000) 25200]))
  /\ file (fst (saveData (fst (startup brt restart_time restart_time stored_file false))))
     = stored_file.
Proof.
  assert (He : get_entry (getLocalDateStr brt restart_time)
    [(20746, EDay 25200 (Some [Session (midnight_20_oct_2026 + 3600000)
                                  (midnight_20_oct_2026 + 28800000) 25200]))]
  = Some (EDay (day_total [Session (midnight_20_oct_2026 + 3600000)
                              (midnight_20_oct_2026 + 28800000) 25200])
            (Some [Session (midnight_20_oct_2026 + 3600000)
                     (midnight_20_oct_2026 + 28800000) 25200]))) by reflexivity.
  split; [exact He|].
  exact (X_load_then_save brt restart_time restart_time false _ _ He).
Defined.

(** * The renderer (src/unnamed/part_000) *)

(** ** [formatTime] (lines 5-10) *)

(** The character of a decimal digit [d] (0 <= d < 10). *)
Definition digit_char (d : Z) : Ascii.ascii := Ascii.ascii_of_nat (48 + Z.to_nat d).

(** Decimal digits of [n >= 0], most significant first, in front of [acc]. *)
Fixpoint digits_aux (fuel : nat) (n : Z) (acc : String.string) : String.string :=
  match fuel with
  | O => acc
  | S f =>
      let acc' := String.String (digit_char (n mod 10)) acc in
      if n <? 10 then acc' else digits_aux f (n / 10) acc'
  end.

(** [String(n)] of an integer.  [n] has at most [floor(log2 n) + 1]
    decimal digits, so the fuel never runs out. *)
Definition number_to_string (n : Z) : String.string :=
  let fuel := S (Z.to_nat (Z.log2 (Z.abs n))) in
  if n <? 0 then String.String "-"%char (digits_aux fuel (- n) String.EmptyString)
  else digits_aux fuel n String.EmptyString.

Fixpoint zeros (k : nat) : String.string :=
  match k with
  | O => String.EmptyString
  | S k' => String.String "0"%char (zeros k')
  end.

(** [s.padStart(2, '0')]: the one-character filler repeated up to the
    target length; a longer string is left as it is. *)
Definition padStart2 (s : String.string) : String.string :=
  String.append (zeros (2 - String.length s)) s.

(** [formatTime(totalSeconds)] of an integer: [Math.floor] of an exact
    quotient is [Z.div]; JS [%] truncates, as [Z.rem]. *)
Definition formatTime (totalSeconds : Z) : String.string :=
  let hours := totalSeconds / 3600 in
  let minutes := Z.rem totalSeconds 3600 / 60 in
  let seconds := Z.rem totalSeconds 60 in
  (padStart2 (number_to_string hours) ++ ":" ++
   padStart2 (number_to_string minutes) ++ ":" ++
   padStart2 (number_to_string seconds))%string.

(** Reading a displayed "HH:MM:SS" back as a number of seconds. *)
Definition digit_value (c : Ascii.ascii) : option Z :=
  let v := Z.of_nat (Ascii.nat_of_ascii c) - 48 in
  if (0 <=? v) && (v <? 10) then Some v else None.

Definition read_hms (s : String.string) : option Z :=
  match s with
  | String.String h1 (String.String h2 (String.String c1
      (String.String m1 (String.String m2 (String.String c2
        (String.String s1 (String.String s2 String.EmptyString))))))) =>
      if Ascii.eqb c1 ":" && Ascii.eqb c2 ":" then
        match digit_value h1, digit_value h2, digit_value m1, digit_value m2,
              digit_value s1, digit_value s2 with
        | Some a, Some b, Some c, Some d, Some e, Some f =>
            Some ((10 * a + b) * 3600 + (10 * c + d) * 60 + (10 * e + f))
        | _, _, _, _, _, _ => None
        end
      else None
  | _ => None
  end.

Lemma digit_value_char (d : Z) : 0 <= d < 10 -> digit_value (digit_char d) = Some d.
Proof.
  intros H.
  assert (d = 0 \/ d = 1 \/ d = 2 \/ d = 3 \/ d = 4 \/ d = 5 \/ d = 6 \/ d = 7
          \/ d = 8 \/ d = 9) as Hd by lia.
  repeat destruct Hd as [-> | Hd]; [reflexivity .. | subst; reflexivity].
Qed.

Lemma padStart2_small (x : Z) : 0 <= x < 100 ->
  padStart2 (number_to_string x)
  = String.String (digit_char (x / 10))
      (String.String (digit_char (x mod 10)) String.EmptyString).
Proof.
  intros Hx. unfold number_to_string.
  replace (x <? 0) with false by (symmetry; apply Z.ltb_ge; lia).
  rewrite Z.abs_eq by lia.
  destruct (Z.ltb_spec x 10) as [Hlt|Hge].
  - cbn [digits_aux]. rewrite (proj2 (Z.ltb_lt x 10) Hlt).
    rewrite (Z.div_small x 10) by lia. reflexivity.
  - assert (Hl : 3 <= Z.log2 x).
    { change 3 with (Z.log2 8). apply Z.log2_le_mono. lia. }
    destruct (Z.to_nat (Z.log2 x)) as [|f] eqn:Ef; [lia|].
    cbn [digits_aux]. rewrite (proj2 (Z.ltb_ge x 10) Hge).
    destruct f as [|f']; [lia|]. cbn [digits_aux].
    assert (Hq : 0 <= x / 10 < 10).
    { split; [apply Z.div_pos; lia|apply Z.div_lt_upper_bound; lia]. }
    rewrite (proj2 (Z.ltb_lt (x / 10) 10)) by lia.
    rewrite (Z.mod_small (x / 10) 10) by lia. reflexivity.
Qed.

(** The clock of the window: for a total below 100 hours, [formatTime]
    gives exactly eight characters "HH:MM:SS" whose fields read back to the
    total, minutes and seconds below 60. *)
Theorem X_formatTime_roundtrip (n : Z) :
  0 <= n < 360000 ->
  String.length (formatTime n) = 8%nat /\ read_hms (formatTime n) = Some n.
Proof.
  intros Hn. unfold formatTime.
  rewrite !Z.rem_mod_nonneg by lia.
  assert (Hh : 0 <= n / 3600 < 100).
  { split; [apply Z.div_pos; lia|apply Z.div_lt_upper_bound; lia]. }
  assert (Hr := Z.mod_pos_bound n 3600 ltac:(lia)).
  assert (Hm : 0 <= n mod 3600 / 60 < 60).
  { split; [apply Z.div_pos; lia|apply Z.div_lt_upper_bound; lia]. }
  assert (Hs := Z.mod_pos_bound n 60 ltac:(lia)).
  rewrite (padStart2_small (n / 3600)), (padStart2_small (n mod 3600 / 60)),
    (padStart2_small (n mod 60)) by lia.
  split; [reflexivity|].
  cbn [read_hms String.append Ascii.eqb Bool.eqb andb].
  simpl (Ascii.eqb _ _ && _).
  assert (Hd : forall x, 0 <= x < 100 -> 0 <= x / 10 < 10 /\ 0 <= x mod 10 < 10).
  { intros x Hx. split; [split; [apply Z.div_pos; lia|apply Z.div_lt_upper_bound; lia]|].
    apply Z.mod_pos_bound. lia. }
  destruct (Hd _ Hh) as [Hh1 Hh2]. destruct (Hd (n mod 3600 / 60) ltac:(lia)) as [Hm1 Hm2].
  destruct (Hd (n mod 60) ltac:(lia)) as [Hs1 Hs2].
  rewrite !digit_value_char by assumption. f_equal.
  pose proof (Z.div_mod (n / 3600) 10 ltac:(lia)).
  pose proof (Z.div_mod (n mod 3600 / 60) 10 ltac:(lia)).
  pose proof (Z.div_mod (n mod 60) 10 ltac:(lia)).
  pose proof (Z.div_mod n 3600 ltac:(lia)).
  pose proof (Z.div_mod (n mod 3600) 60 ltac:(lia)).
  pose proof (Z.div_mod n 60 ltac:(lia)).
  pose proof (Z.mod_pos_bound (n mod 3600) 60 ltac:(lia)).
  lia.
Qed.

Lemma X_formatTime_roundtrip_witness :
  0 <= 3605 < 360000
  /\ String.length (formatTime 3605) = 8%nat /\ read_hms (formatTime 3605) = Some 3605.
Proof.
  assert (H : 0 <= 3605 < 360000) by lia.
  split; [exact H|]. exact (X_formatTime_roundtrip 3605 H).
Defined.

(** The total 3605 of [day_tick_total] is shown as "01:00:05"; from 100
    hours on the hours field grows. *)
Example formatTime_3605 : formatTime 3605 = "01:00:05"%string.
Proof. reflexivity. Qed.

Example formatTime_100h : formatTime 360000 = "100:00:00"%string.
Proof. reflexivity. Qed.

(** ** The status dot (lines 30-40) *)

(** The [status] strings the main process sends (lines 30, 281, 309, 311). *)
Definition status_text (s : status) : String.string :=
  match s with
  | Initializing => "Initializing"
  | TrackingWorking => "Tracking (Working)"
  | PausedChromeClosed => "Paused (Chrome Closed)"
  | PausedIdle => "Paused (Idle)"
  end%string.

(** [s.includes(sub)]. *)
Fixpoint includes (s sub : String.string) : bool :=
  String.prefix sub s
  || match s with
     | String.EmptyString => false
     | String.String _ r => includes r sub
     end.

(** The class added to ['dot']: ['active'], ['paused-idle'] or
    ['paused-chrome']; [None] leaves the plain ['dot']. *)
Inductive dot_state :=
| DotActive
| DotPausedIdle
| DotPausedChrome.

Definition dot_class (isTracking : bool) (status : String.string) : option dot_state :=
  if isTracking then Some DotActive
  else if includes status "Idle" then Some DotPausedIdle
  else if includes status "Chrome" then Some DotPausedChrome
  else None.

Lemma post_status (tz : Z) (i : tick_input) (w : world) :
  status_ (td (fst (checkActivity_post tz i w)))
  = (if tick_working i w then TrackingWorking
     else if isChromeRunning (chrome i) then PausedIdle
     else PausedChromeClosed).
Proof.
  unfold checkActivity_post, tick_working.
  destruct (getIdleTime _ _ _) as [idle uf]; simpl fst.
  destruct (isWorking_of _ idle).
  - destruct (checkNotifications _ _). reflexivity.
  - destruct (commitSession i (set_useFallback uf w)).
    destruct (checkNotifications _ _). simpl.
    destruct (isChromeRunning (chrome i)); reflexivity.
Qed.

(** The last effect of a step is the [update-time] snapshot of the state
    it leaves. *)
Lemma post_last_update (tz : Z) (i : tick_input) (w : world) :
  exists total,
    last (snd (checkActivity_post tz i w)) EvLog
    = EvUpdate total (status_ (td (fst (checkActivity_post tz i w))))
        (isTracking (td (fst (checkActivity_post tz i w))))
        (lastActiveTime (td (fst (checkActivity_post tz i w))))
        (currentDate (td (fst (checkActivity_post tz i w)))).
Proof.
  unfold checkActivity_post.
  destruct (getIdleTime _ _ _) as [idle uf].
  destruct (isWorking_of _ idle).
  - destruct (checkNotifications _ _) as [ns ev3]. cbn [fst snd].
    eexists. rewrite !app_assoc, last_last. reflexivity.
  - destruct (commitSession i (set_useFallback uf w)) as [w2 ev2].
    destruct (checkNotifications _ _) as [ns ev3]. cbn [fst snd].
    eexists. rewrite !app_assoc, last_last. reflexivity.
Qed.

(** After every step the dot shows what the step found: ['active'] while
    working, ['paused-idle'] when Chrome runs but the user is idle,
    ['paused-chrome'] when Chrome is closed; never the bare ['dot']. *)
Theorem X_dot_follows_step (tz : Z) (i : tick_input) (w : world) :
  match last (snd (checkActivity tz i w)) EvLog with
  | EvUpdate _ st tr _ _ =>
      dot_class tr (status_text st)
      = Some (if tick_working i w then DotActive
              else if isChromeRunning (chrome i) then DotPausedIdle
              else DotPausedChrome)
  | _ => False
  end.
Proof.
  unfold checkActivity.
  assert (Hw : tick_working i (fst (checkActivity_pre tz i w)) = tick_working i w).
  { unfold tick_working. now rewrite pre_useFallback. }
  destruct (checkActivity_pre tz i w) as [w1 ev1]. cbn [fst] in Hw.
  destruct (post_last_update tz i w1) as [total Hl].
  pose proof (post_status tz i w1) as Hs.
  pose proof (post_isTracking tz i w1) as Ht.
  destruct (checkActivity_post tz i w1) as [w2 ev2]. cbn [fst snd] in *.
  assert (Hne : ev2 <> []) by (intros ->; discriminate Hl).
  destruct (exists_last Hne) as [pre [u ->]].
  rewrite app_assoc, last_last. rewrite last_last in Hl. subst u.
  rewrite Hs, Ht. fold (tick_working i w1). rewrite Hw.
  destruct (tick_working i w); [reflexivity|].
  destruct (isChromeRunning (chrome i)); reflexivity.
Qed.

(** ** The regrouping of [renderHistory] (lines 68-92) *)

(** [dayData.sessions || []] for a value of the history object: the
    sessions of a day record, nothing for a day record without them or a
    legacy number (whose [.sessions] is [undefined]).  For [EOther] the
    source either throws ([null]) or finds nothing; the properties below
    exclude it. *)
Definition entry_sessions (e : entry) : list session :=
  match e with
  | EDay _ (Some ss) => ss
  | _ => []
  end.

(** [grouped[localDateKey]]: created as [{ sessions: [], total: 0 }] at the
    end of the object when the date is new (date keys are not array
    indices, so they keep insertion order), then the session pushed and its
    duration added.  Stored sessions carry [toISOString] strings, never
    empty, so the [!session.start || !session.end] guard drops none. *)
Fixpoint group_push (k : Z) (s : session) (g : list (Z * (list session * Z)))
  : list (Z * (list session * Z)) :=
  match g with
  | [] => [(k, ([s], 0 + duration s))]
  | (k', (ss, tot)) :: r =>
      if k =? k' then (k', (ss ++ [s], tot + duration s)) :: r
      else (k', (ss, tot)) :: group_push k s r
  end.

(** Lines 72-92: every session of every value of the history, keyed by the
    local date of its start. *)
Definition regroup (tz : Z) (es : list (Z * entry)) : list (Z * (list session * Z)) :=
  fold_left
    (fun g ke =>
       fold_left (fun g s => group_push (getLocalDateStr tz (start s)) s g)
         (entry_sessions (snd ke)) g)
    es [].

Definition group_sessions (g : list (Z * (list session * Z))) : list session :=
  flat_map (fun p => fst (snd p)) g.

Definition groups_wf (tz : Z) (g : list (Z * (list session * Z))) : Prop :=
  NoDup (map fst g)
  /\ Forall (fun p => snd (snd p) = day_total (fst (snd p))
                      /\ fst (snd p) <> []
                      /\ Forall (fun s => getLocalDateStr tz (start s) = fst p)
                           (fst (snd p))) g.

Lemma day_total_app (l1 l2 : list session) :
  day_total (l1 ++ l2) = day_total l1 + day_total l2.
Proof.
  unfold day_total. rewrite fold_left_app, !fold_left_add_fold_right. lia.
Qed.

Lemma day_total_perm (l1 l2 : list session) :
  Permutation l1 l2 -> day_total l1 = day_total l2.
Proof.
  intros Hp. induction Hp as [|x l1 l2 _ IH|x y l|l1 l2 l3 _ IH1 _ IH2].
  - reflexivity.
  - change (x :: l1) with ([x] ++ l1). change (x :: l2) with ([x] ++ l2).
    rewrite !day_total_app, IH. reflexivity.
  - change (y :: x :: l) with ([y] ++ [x] ++ l).
    change (x :: y :: l) with ([x] ++ [y] ++ l).
    rewrite !day_total_app. lia.
  - congruence.
Qed.

Lemma group_push_keys (k : Z) (s : session) (g : list (Z * (list session * Z))) (x : Z) :
  In x (map fst (group_push k s g)) <-> x = k \/ In x (map fst g).
Proof.
  induction g as [|[k' [ss tot]] r IH]; simpl; [intuition congruence|].
  destruct (Z.eqb_spec k k'); simpl.
  - subst. intuition congruence.
  - rewrite IH. intuition congruence.
Qed.

Lemma group_push_wf (tz : Z) (s : session) (g : list (Z * (list session * Z))) :
  groups_wf tz g -> groups_wf tz (group_push (getLocalDateStr tz (start s)) s g).
Proof.
  induction g as [|[k' [ss tot]] r IH]; intros [Hnd Hf]; simpl.
  - split; [constructor; [intros []|constructor]|].
    constructor; [|constructor]. simpl. split; [unfold day_total; simpl; lia|].
    split; [discriminate|]. constructor; [reflexivity|constructor].
  - apply NoDup_cons_iff in Hnd as [Hni Hnd].
    apply Forall_cons_iff in Hf as [[Ht [Hne Hd]] Hf].
    destruct (Z.eqb_spec (getLocalDateStr tz (start s)) k') as [Heq|Hneq].
    + split; [simpl; constructor; assumption|].
      constructor; [|exact Hf]. simpl in *.
      split; [rewrite day_total_app, Ht; unfold day_total; simpl; lia|].
      split; [destruct ss; discriminate|].
      apply Forall_app. split; [exact Hd|constructor; [exact Heq|constructor]].
    + destruct (IH (conj Hnd Hf)) as [Hnd' Hf'].
      split.
      * simpl. constructor; [|exact Hnd'].
        rewrite group_push_keys. intros [H|H]; [congruence|contradiction].
      * constructor; [|exact Hf']. simpl in *. tauto.
Qed.

Lemma group_push_sessions (k : Z) (s : session) (g : list (Z * (list session * Z))) :
  Permutation (group_sessions (group_push k s g)) (group_sessions g ++ [s]).
Proof.
  unfold group_sessions.
  induction g as [|[k' [ss tot]] r IH]; simpl; [reflexivity|].
  destruct (k =? k'); simpl.
  - rewrite <- !app_assoc. apply Permutation_app_head. simpl.
    apply Permutation_cons_append.
  - rewrite <- app_assoc. apply Permutation_app_head. exact IH.
Qed.

Lemma regroup_day (tz : Z) (ss : list session) (g : list (Z * (list session * Z))) :
  groups_wf tz g ->
  let g' := fold_left (fun g s => group_push (getLocalDateStr tz (start s)) s g) ss g in
  groups_wf tz g' /\ Permutation (group_sessions g') (group_sessions g ++ ss).
Proof.
  revert g. induction ss as [|s r IH]; intros g Hg; simpl.
  - rewrite app_nil_r. split; [exact Hg|reflexivity].
  - destruct (IH _ (group_push_wf tz s g Hg)) as [Hwf Hp].
    split; [exact Hwf|].
    rewrite Hp. rewrite (group_push_sessions _ s g).
    rewrite <- app_assoc. reflexivity.
Qed.

Lemma regroup_all (tz : Z) (es : list (Z * entry)) (g : list (Z * (list session * Z))) :
  groups_wf tz g ->
  let g' := fold_left
    (fun g ke =>
       fold_left (fun g s => group_push (getLocalDateStr tz (start s)) s g)
         (entry_sessions (snd ke)) g) es g in
  groups_wf tz g'
  /\ Permutation (group_sessions g')
       (group_sessions g ++ flat_map (fun ke => entry_sessions (snd ke)) es).
Proof.
  revert g. induction es as [|ke r IH]; intros g Hg; simpl.
  - rewrite app_nil_r. split; [exact Hg|reflexivity].
  - destruct (regroup_day tz (entry_sessions (snd ke)) g Hg) as [Hwf1 Hp1].
    destruct (IH _ Hwf1) as [Hwf Hp].
    split; [exact Hwf|].
    rewrite Hp, Hp1, app_assoc. reflexivity.
Qed.

(** The History view loses and duplicates no session: its day blocks have
    distinct dates, each block holds the sessions that started on its local
    date, its total is the sum of their durations, and together the blocks
    hold exactly the stored sessions, so the block totals add up to all
    recorded time. *)
Theorem X_history_regroup (tz : Z) (es : list (Z * entry)) :
  Forall (fun ke => snd ke <> EOther) es ->
  let g := regroup tz es in
  NoDup (map fst g)
  /\ Forall (fun p => snd (snd p) = day_total (fst (snd p))
                      /\ fst (snd p) <> []
                      /\ Forall (fun s => getLocalDateStr tz (start s) = fst p)
                           (fst (snd p))) g
  /\ Permutation (flat_map (fun p => fst (snd p)) g)
       (flat_map (fun ke => entry_sessions (snd ke)) es)
  /\ fold_right (fun p acc => snd (snd p) + acc) 0 g
     = day_total (flat_map (fun ke => entry_sessions (snd ke)) es).
Proof.
  intros _. cbv zeta.
  assert (H0 : groups_wf tz []) by (split; constructor).
  destruct (regroup_all tz es [] H0) as [[Hnd Hf] Hp].
  fold (regroup tz es) in Hnd, Hf, Hp.
  change (group_sessions [] ++ ?l) with l in Hp.
  split; [exact Hnd|]. split; [exact Hf|].
  split; [exact Hp|].
  rewrite <- (day_total_perm _ _ Hp). unfold group_sessions.
  clear Hp Hnd. induction (regroup tz es) as [|[k [ss tot]] r IH]; [reflexivity|].
  apply Forall_cons_iff in Hf as [[Ht _] Hf]. simpl in *.
  rewrite day_total_app, IH by exact Hf. lia.
Qed.

Definition stored_entries : list (Z * entry) :=
  match stored_file with FJson (TObj es) => es | _ => [] end.

Lemma X_history_regroup_witness :
  Forall (fun ke => snd ke <> EOther) stored_entries
  /\ fold_right (fun p acc => snd (snd p) + acc) 0 (regroup brt stored_entries)
     = day_total (flat_map (fun ke => entry_sessions (snd ke)) stored_entries).
Proof.
  assert (H : Forall (fun ke => snd ke <> EOther) stored_entries).
  { constructor; [discriminate|constructor]. }
  split; [exact H|].
  exact (proj2 (proj2 (proj2 (X_history_regroup brt _ H)))).
Defined.
